(** * Product Data Annotator (targetapp.py): a shallow embedding

    The program fetches one product record from the RedCircle API, keeps it
    in the Streamlit session, shows the fields of a catalog and exports the
    required ones as JSON.  This file embeds the parts of [targetapp.py]
    that the specification talks about and settles its claims.

    Conventions of the embedding.
    - A Python [str] is a Rocq [string]; a character stands for the code
      point with the same number, so the strings of the model are the
      Python strings over code points below 256.
    - A Python [float] is kept as its [repr] (the shortest decimal text that
      reads back as the same float), which is all the program does with a
      float: it prints it.
    - A Python [dict] is an association list in insertion order with
      distinct keys; [list] is a Rocq list.
    - A raised exception is a value of [result]. *)

From Stdlib Require Import ZArith Ascii String DecimalString.
From stdpp Require Import gmap strings list.

Set Warnings "-register-all".

Local Open Scope string_scope.
Local Open Scope list_scope.

(** ** JSON values as Python objects *)

Inductive json : Type :=
| JNull
| JBool (b : bool)
| JInt (n : Z)
| JFloat (repr : string)
| JStr (s : string)
| JList (l : list json)
| JDict (d : list (string * json)).

Abbreviation dict := (list (string * json)).

(** [d.get(k, default)] *)
Fixpoint dict_get (d : dict) (k : string) (default : json) : json :=
  match d with
  | [] => default
  | (k', v) :: d' => if String.eqb k' k then v else dict_get d' k default
  end.

(** [k in d] *)
Fixpoint dict_contains (d : dict) (k : string) : bool :=
  match d with
  | [] => false
  | (k', _) :: d' => if String.eqb k' k then true else dict_contains d' k
  end.

(** [d[k] = v]: an existing key keeps its position, a new one goes last. *)
Fixpoint dict_set (d : dict) (k : string) (v : json) : dict :=
  match d with
  | [] => [(k, v)]
  | (k', v') :: d' =>
      if String.eqb k' k then (k', v) :: d' else (k', v') :: dict_set d' k v
  end.

(** [list(d.keys())] *)
Definition dict_keys (d : dict) : list string := map fst d.

(** [bool(d)] for a dict: true exactly when it has an entry. *)
Definition dict_truthy (d : dict) : bool :=
  match d with [] => false | _ :: _ => true end.

(** ** Exceptions *)

Inductive exn : Type :=
| AttributeError (type_name attr : string)
| MediaFileStorageError (text : string).

Inductive result (A : Type) : Type :=
| Ok (a : A)
| Raise (e : exn).
Arguments Ok {A} a.
Arguments Raise {A} e.

(** Sequencing stops at the first exception; [x ← r; k] is stdpp's
    notation for it. *)
#[global] Instance result_ret : MRet result := λ A a, Ok a.
#[global] Instance result_bind : MBind result := λ A B k r,
  match r with
  | Ok a => k a
  | Raise e => Raise e
  end.

Definition type_name (v : json) : string :=
  match v with
  | JNull => "NoneType"
  | JBool _ => "bool"
  | JInt _ => "int"
  | JFloat _ => "float"
  | JStr _ => "str"
  | JList _ => "list"
  | JDict _ => "dict"
  end.

(** [o.get(k, default)] on an arbitrary object: only a dict has the method. *)
Definition py_get (o : json) (k : string) (default : json) : result json :=
  match o with
  | JDict d => Ok (dict_get d k default)
  | _ => Raise (AttributeError (type_name o) "get")
  end.

(** ** [str] and [repr] *)

Definition hex_digit (n : N) : ascii :=
  ascii_of_N (if (n <? 10)%N then 48 + n else 87 + n)%N.

Definition hex2 (c : ascii) : string :=
  let n := N_of_ascii c in
  String (hex_digit (n / 16)%N) (String (hex_digit (n mod 16)%N) "").

Fixpoint string_contains (c : ascii) (s : string) : bool :=
  match s with
  | EmptyString => false
  | String c' s' => if Ascii.eqb c c' then true else string_contains c s'
  end.

(** [str.isprintable] on one code point below 256. *)
Definition printable (c : ascii) : bool :=
  let n := N_of_ascii c in
  ((32 <=? n) && (n <? 127) || (161 <=? n) && negb (n =? 173))%N.

Definition repr_char (quote c : ascii) : string :=
  if Ascii.eqb c quote || Ascii.eqb c "\"%char then String "\"%char (String c "")
  else if Ascii.eqb c "009"%char then "\t"
  else if Ascii.eqb c "010"%char then "\n"
  else if Ascii.eqb c "013"%char then "\r"
  else if printable c then String c ""
  else "\x" +:+ hex2 c.

Fixpoint concat_map (f : ascii -> string) (s : string) : string :=
  match s with
  | EmptyString => ""
  | String c s' => f c +:+ concat_map f s'
  end.

(** [repr(s)] for a str: single quotes unless the text has one and no
    double quote. *)
Definition py_repr_str (s : string) : string :=
  let quote :=
    if string_contains "'"%char s && negb (string_contains "034"%char s)
    then "034"%char else "'"%char in
  String quote (concat_map (repr_char quote) s) +:+ String quote "".

(** [sep.join(l)] *)
Fixpoint join (sep : string) (l : list string) : string :=
  match l with
  | [] => ""
  | [x] => x
  | x :: l' => x +:+ sep +:+ join sep l'
  end.

Definition str_int (n : Z) : string := NilZero.string_of_int (Z.to_int n).

Fixpoint py_repr (v : json) : string :=
  match v with
  | JNull => "None"
  | JBool b => if b then "True" else "False"
  | JInt n => str_int n
  | JFloat r => r
  | JStr s => py_repr_str s
  | JList l => "[" +:+ join ", " (map py_repr l) +:+ "]"
  | JDict d =>
      "{" +:+ join ", " (map (fun kv => py_repr_str (fst kv) +:+ ": " +:+ py_repr (snd kv)) d)
          +:+ "}"
  end.

(** [str(v)], also what an f-string field [{v}] prints. *)
Definition py_str (v : json) : string :=
  match v with
  | JStr s => s
  | _ => py_repr v
  end.

(** ** [json.dumps(obj, indent=4)] *)

(** One character of a JSON string with [ensure_ascii]: the text between
    space and tilde stands for itself, the rest is escaped. *)
Definition json_escape_char (c : ascii) : string :=
  let n := N_of_ascii c in
  if Ascii.eqb c "034"%char then String "\"%char (String c "")
  else if Ascii.eqb c "\"%char then "\\"
  else if Ascii.eqb c "008"%char then "\b"
  else if Ascii.eqb c "012"%char then "\f"
  else if Ascii.eqb c "010"%char then "\n"
  else if Ascii.eqb c "013"%char then "\r"
  else if Ascii.eqb c "009"%char then "\t"
  else if ((32 <=? n) && (n <=? 126))%N then String c ""
  else "\u00" +:+ hex2 c.

Definition json_string (s : string) : string :=
  String "034"%char (concat_map json_escape_char s) +:+ String "034"%char "".

Fixpoint spaces (n : nat) : string :=
  match n with
  | O => ""
  | S n' => String " "%char (spaces n')
  end.

(** A line break followed by the indentation of nesting depth [level]. *)
Definition newline_indent (level : nat) : string :=
  String "010"%char (spaces (4 * level)).

Definition json_float (r : string) : string :=
  if String.eqb r "nan" then "NaN"
  else if String.eqb r "inf" then "Infinity"
  else if String.eqb r "-inf" then "-Infinity"
  else r.

Fixpoint json_encode (level : nat) (v : json) : string :=
  match v with
  | JNull => "null"
  | JBool b => if b then "true" else "false"
  | JInt n => str_int n
  | JFloat r => json_float r
  | JStr s => json_string s
  | JList [] => "[]"
  | JList l =>
      "[" +:+ newline_indent (S level)
          +:+ join ("," +:+ newline_indent (S level)) (map (json_encode (S level)) l)
          +:+ newline_indent level +:+ "]"
  | JDict [] => "{}"
  | JDict d =>
      "{" +:+ newline_indent (S level)
          +:+ join ("," +:+ newline_indent (S level))
                (map (fun kv => json_string (fst kv) +:+ ": " +:+ json_encode (S level) (snd kv)) d)
          +:+ newline_indent level +:+ "}"
  end.

Definition json_dumps (d : dict) : string := json_encode 0 (JDict d).

(** ** Field catalog and key mapping *)

(** A row of [field_status]: [{"field": ..., "required": ...}], with a
    str and a bool as in the rows the program creates. *)
Record field_row : Type := { field : string; required : bool }.

(** The rows that [init_session_state] installs. *)
Definition default_field_status : list field_row :=
  [ {| field := "TCIN"; required := true |};
    {| field := "Product Title"; required := true |};
    {| field := "Brand"; required := true |};
    {| field := "Price"; required := true |};
    {| field := "Main Image"; required := true |};
    {| field := "UPC"; required := false |};
    {| field := "DPCI"; required := false |};
    {| field := "Description"; required := false |};
    {| field := "Ingredients"; required := false |};
    {| field := "Feature Bullets"; required := false |};
    {| field := "Specifications"; required := false |};
    {| field := "Weight"; required := false |};
    {| field := "Dimensions"; required := false |};
    {| field := "Total Ratings"; required := false |} ].

Definition key_mapping : list (string * string) :=
  [ ("TCIN", "tcin");
    ("Product Title", "title");
    ("Brand", "brand");
    ("UPC", "upc");
    ("DPCI", "dpci");
    ("Description", "description");
    ("Ingredients", "ingredients");
    ("Feature Bullets", "feature_bullets");
    ("Specifications", "specifications_flat");
    ("Weight", "weight");
    ("Dimensions", "dimensions");
    ("Total Ratings", "ratings_total") ].

(** [m.get(k, default)] on a str-to-str dict. *)
Fixpoint mapping_get (m : list (string * string)) (k default : string) : string :=
  match m with
  | [] => default
  | (k', v) :: m' => if String.eqb k' k then v else mapping_get m' k default
  end.

Definition in_key_mapping (f : string) : bool :=
  existsb (fun kv => String.eqb (fst kv) f) key_mapping.

(** ** Projecting one field *)

(** [data.get("buybox_winner", {}).get("price", {})], then the two parts
    of the price; the f-string prints currency and value side by side. *)
Definition price_text (data : dict) : result string :=
  price_obj ← py_get (dict_get data "buybox_winner" (JDict [])) "price" (JDict []);
  currency ← py_get price_obj "currency_symbol" (JStr "");
  value ← py_get price_obj "value" (JStr "N/A");
  mret (py_str currency +:+ py_str value).

(** A list value becomes its elements, each through [str], joined with a
    comma and a space; any other value stays what it is. *)
Definition flatten_list (value : json) : json :=
  match value with
  | JList l => JStr (join ", " (map py_str l))
  | _ => value
  end.

(** The [else] branch shared by the three loops. *)
Definition mapped_value (data : dict) (field : string) : json :=
  let api_key_field := mapping_get key_mapping field field in
  let value := dict_get data api_key_field (JStr "N/A") in
  flatten_list value.

(** The body of the export loop of [draw_annotations_tab]: the value
    stored under [final_data[field]]. *)
Definition export_field_value (data : dict) (field : string) : result json :=
  if String.eqb field "Price" then
    text ← price_text data; mret (JStr text)
  else if String.eqb field "Main Image" then
    let main_img := dict_get data "main_image" (JDict []) in
    mret (match main_img with
          | JDict m => dict_get m "link" (JStr "N/A")
          | _ => JStr "N/A"
          end)
  else
    mret (mapped_value data field).

Fixpoint export_loop (data : dict) (required_fields : list string) (final_data : dict)
  : result dict :=
  match required_fields with
  | [] => mret final_data
  | field :: rest =>
      value ← export_field_value data field;
      export_loop data rest (dict_set final_data field value)
  end.

Definition required_names (rows : list field_row) : list string :=
  map field (filter (fun row => required row = true) rows).

Definition optional_names (rows : list field_row) : list string :=
  map field (filter (fun row => required row = false) rows).

(** The document built by the export button for a non-empty record. *)
Definition build_final_data (data : dict) (rows : list field_row) : result dict :=
  export_loop data (required_names rows) [].

(** ** What a script run shows *)

Inductive ui_event : Type :=
| Title (text : string)
| Caption (text : string)
| Header (text : string)
| Subheader (text : string)
| Write (text : string)
| Markdown (text : string)
| Info (text : string)
| Warning (text : string)
| Error (text : string)
| Success (text : string)
| Image (url caption : string)
| DataEditor (rows : list field_row)
| Code (text language : string).

(** ** The process: objects, the fetch cache, the requests sent, the session *)

(** The process keeps the objects that were created ([heap]), the fetch
    cache, which holds for a pair of arguments the returned object
    ([cache]) and the messages the call showed when it ran ([recorded]),
    the log of the requests sent, and the session.  [image_error] is the
    part of the environment that [st.image] depends on: for a link, [None]
    when the image is shown and the exception when the call raises (a
    string that starts with http without being an http(s) URL is opened as
    a local file). *)

(** The three keys of [st.session_state] that the program uses; a key is
    absent until [init_session_state] (or an assignment) creates it.  The
    product record is held by reference: a location of the heap. *)
Record session_state : Type := {
  product_data : option nat;
  api_key : option string;
  field_status : option (list field_row)
}.

Record world : Type := {
  heap : list dict;
  cache : gmap (string * string) nat;
  requests : list (string * string);
  session : session_state;
  recorded : gmap (string * string) (list ui_event);
  image_error : string → option exn
}.

Definition empty_world : world :=
  {| heap := []; cache := ∅; requests := [];
     session := {| product_data := None; api_key := None; field_status := None |};
     recorded := ∅; image_error := fun _ => None |}.

Definition set_session (s : session_state) (w : world) : world :=
  {| heap := heap w; cache := cache w; requests := requests w; session := s;
     recorded := recorded w; image_error := image_error w |}.

Definition set_product_data (l : nat) (s : session_state) : session_state :=
  {| product_data := Some l; api_key := api_key s; field_status := field_status s |}.

Definition set_api_key (k : string) (s : session_state) : session_state :=
  {| product_data := product_data s; api_key := Some k; field_status := field_status s |}.

Definition set_field_status (rows : list field_row) (s : session_state) : session_state :=
  {| product_data := product_data s; api_key := api_key s; field_status := Some rows |}.

(** A new object; its location is the next free index. *)
Definition alloc (d : dict) (w : world) : nat * world :=
  (length (heap w),
   {| heap := heap w ++ [d]; cache := cache w; requests := requests w;
      session := session w; recorded := recorded w; image_error := image_error w |}).

(** The object at a location (the empty dict stands for a location that was
    never allocated; [wf_world] rules that out). *)
Definition deref (w : world) (l : nat) : dict := heap w !!! l.

(** [obj[k] = v] executed by whoever holds the reference [l]. *)
Definition setitem (l : nat) (k : string) (v : json) (w : world) : world :=
  {| heap := alter (fun d => dict_set d k v) l (heap w); cache := cache w;
     requests := requests w; session := session w;
     recorded := recorded w; image_error := image_error w |}.

(** Every reference kept by the cache or by the session is allocated. *)
Definition wf_world (w : world) : Prop :=
  (∀ k l, cache w !! k = Some l → (l < length (heap w))%nat) ∧
  (∀ l, product_data (session w) = Some l → (l < length (heap w))%nat).

(** ** 1. Fetching *)

(** How lines 34-36 (the GET with its retries, [raise_for_status], the
    JSON decoding) end: with the decoded body, or with an exception, named
    by the [except] clause that catches it. *)
Inductive request_error : Type :=
| Timeout
| HTTPError (text : string)
| RequestException (text : string)
| OtherException (text : string).

Inductive http_outcome : Type :=
| Body (product_data : json)
| Failed (e : request_error).

(** Lines 38-39: a dict with a [product] key is replaced by what is under
    that key. *)
Definition unwrap_product (product_data : json) : json :=
  match product_data with
  | JDict d => if dict_contains d "product" then dict_get d "product" JNull else product_data
  | _ => product_data
  end.

(** The body of [fetch_product_data_from_api] once the request has ended. *)
Definition fetch_uncached (reply : http_outcome) : dict * list ui_event :=
  match reply with
  | Body product_data =>
      match unwrap_product product_data with
      | JDict d => (d, [])
      | _ => ([], [Warning "Fetched product data is not a dictionary. Check API response format."])
      end
  | Failed Timeout =>
      ([], [Error "Request timed out even after retries. Please try again later."])
  | Failed (HTTPError http_err) => ([], [Error ("HTTP error: " +:+ http_err)])
  | Failed (RequestException req_err) => ([], [Error ("Network/Request error: " +:+ req_err)])
  | Failed (OtherException e) =>
      ([], [Error ("Unhandled exception while fetching data: " +:+ e)])
  end.

(** The messages that the cache replays for a pair of arguments. *)
Definition replayed (w : world) (k : string * string) : list ui_event :=
  default [] (recorded w !! k).

(** [@st.cache(allow_output_mutation=True)]: the first call with a pair of
    arguments runs the body and keeps the returned object together with
    the messages the body showed; a later call with the same pair returns
    that very object, without running the body and without copying or
    checking it, and shows the kept messages again.  [reply] is what the
    network would answer; it is consulted only when the body runs, and
    then the request is recorded. *)
Definition fetch_product_data_from_api (api_key tcin : string) (reply : http_outcome)
    (w : world) : nat * list ui_event * world :=
  match cache w !! (api_key, tcin) with
  | Some l => (l, replayed w (api_key, tcin), w)
  | None =>
      let '(d, messages) := fetch_uncached reply in
      let l := length (heap w) in
      (l, messages,
       {| heap := heap w ++ [d];
          cache := <[(api_key, tcin) := l]> (cache w);
          requests := requests w ++ [(api_key, tcin)];
          session := session w;
          recorded := <[(api_key, tcin) := messages]> (recorded w);
          image_error := image_error w |})
  end.

(** ** 2. Session state *)

Definition init_session_state (w : world) : world :=
  let w :=
    match product_data (session w) with
    | Some _ => w
    | None => let '(l, w') := alloc [] w in
              set_session (set_product_data l (session w')) w'
    end in
  let w :=
    match api_key (session w) with
    | Some _ => w
    | None => set_session (set_api_key "" (session w)) w
    end in
  match field_status (session w) with
  | Some _ => w
  | None => set_session (set_field_status default_field_status (session w)) w
  end.

(** ** 4. UI components *)

Definition draw_header : list ui_event :=
  [ Title "Product Data Annotator";
    Caption "Enter your API key and a TCIN to fetch product data via the RedCircle API, then view, annotate, and export it." ].

(** [bool(s)] for a str. *)
Definition str_truthy (s : string) : bool :=
  match s with EmptyString => false | String _ _ => true end.

(** [api_key_input] and [tcin_input] are what the two text inputs hold,
    [clicked] whether the Fetch Data button was pressed in this run. *)
Definition draw_sidebar (api_key_input tcin_input : string) (clicked : bool)
    (reply : http_outcome) (w : world) : list ui_event * world :=
  let w := set_session (set_api_key api_key_input (session w)) w in
  let headers := [Header "API Credentials"; Header "Search by TCIN"] in
  if clicked then
    if negb (str_truthy api_key_input) then
      (headers ++ [Error "Please provide an API key!"], w)
    else
      let '(l, messages, w) := fetch_product_data_from_api api_key_input tcin_input reply w in
      if dict_truthy (deref w l) then
        (headers ++ messages, set_session (set_product_data l (session w)) w)
      else
        (headers ++ messages
           ++ [Warning "No product data fetched. Check the TCIN or API availability."], w)
  else (headers, w).

(** Reading [st.session_state.<name>]: an absent key raises. *)
Definition session_get {A : Type} (name : string) (o : option A) : result A :=
  match o with
  | Some a => Ok a
  | None => Raise (AttributeError "SessionState" name)
  end.

(** The link under [main_image], when [main_image] is a dict. *)
Definition main_image_url (data : dict) : json :=
  match dict_get data "main_image" JNull with
  | JDict main_image_data => dict_get main_image_data "link" (JStr "")
  | _ => JStr ""
  end.

(** [isinstance(url, str) and url.startswith("http")] *)
Definition displayable_image (url : json) : option string :=
  match url with
  | JStr u => if String.prefix "http" u then Some u else None
  | _ => None
  end.

Definition price_line (data : dict) (field : string) : result ui_event :=
  text ← price_text data; mret (Markdown ("**" +:+ field +:+ ":** " +:+ text)).

Definition mapped_line (data : dict) (field : string) : ui_event :=
  Markdown ("**" +:+ field +:+ ":** " +:+ py_str (mapped_value data field)).

(** One round of the loop in the two-column layout; [None] is [continue]. *)
Definition details_line_columns (data : dict) (field : string) : result (option ui_event) :=
  if String.eqb field "Main Image" then mret None
  else if String.eqb field "Price" then line ← price_line data field; mret (Some line)
  else mret (Some (mapped_line data field)).

(** One round of the loop in the single-column layout. *)
Definition details_line_linear (data : dict) (field : string) : result (option ui_event) :=
  if String.eqb field "Price" then line ← price_line data field; mret (Some line)
  else if String.eqb field "Main Image" then mret None
  else mret (Some (mapped_line data field)).

(** A [for] loop over the displayed fields: the lines written before the
    loop ends or an exception leaves it. *)
Fixpoint details_loop (line : string → result (option ui_event)) (fields : list string)
  : list ui_event * option exn :=
  match fields with
  | [] => ([], None)
  | field :: rest =>
      match line field with
      | Raise e => ([], Some e)
      | Ok shown =>
          let '(events, raised) := details_loop line rest in
          (match shown with Some ev => ev :: events | None => events end, raised)
      end
  end.

(** [show_optional] is the state of the checkbox. *)
Definition draw_product_details_tab (show_optional : bool) (w : world)
  : list ui_event * option exn :=
  let top := [Subheader "Product Details"] in
  match session_get "product_data" (product_data (session w)),
        session_get "field_status" (field_status (session w)) with
  | Raise e, _ => (top, Some e)
  | Ok _, Raise e => (top, Some e)
  | Ok l, Ok rows =>
      let data := deref w l in
      if negb (dict_truthy data) then
        (top ++ [Info "No product data found. Please enter a valid TCIN in the sidebar."], None)
      else
        let required_fields := required_names rows in
        let optional_fields := if show_optional then optional_names rows else [] in
        let displayed_fields := required_fields ++ optional_fields in
        let top := top ++ [Markdown "### Product Information"] in
        match displayable_image (main_image_url data) with
        | Some url =>
            match image_error w url with
            | Some e => (top, Some e)
            | None =>
                let '(lines, raised) :=
                  details_loop (details_line_columns data) displayed_fields in
                (top ++ [Image url "Main Image"] ++ lines, raised)
            end
        | None =>
            let '(lines, raised) := details_loop (details_line_linear data) displayed_fields in
            (top ++ lines, raised)
        end
  end.

(** [edit] is what the table widget does to the rows it is given (the
    user's toggles, added and deleted rows), [clicked] whether the export
    button was pressed in this run. *)
Definition draw_annotations_tab (edit : list field_row → list field_row) (clicked : bool)
    (w : world) : list ui_event * world * option exn :=
  let top :=
    [ Subheader "Annotations: Required vs. Optional Fields";
      Write "Toggle each field's required status using the table below. Fields marked as 'required' will appear in the Product Details view.";
      Write "---" ] in
  match session_get "field_status" (field_status (session w)) with
  | Raise e => (top, w, Some e)
  | Ok rows =>
      let edited_data := edit rows in
      let w := set_session (set_field_status edited_data (session w)) w in
      let top := top ++ [DataEditor edited_data; Write "---"] in
      if clicked then
        match session_get "product_data" (product_data (session w)) with
        | Raise e => (top, w, Some e)
        | Ok l =>
            let data := deref w l in
            if negb (dict_truthy data) then
              (top ++ [Warning "No product data to export. Please fetch data first."], w, None)
            else
              match build_final_data data edited_data with
              | Raise e => (top, w, Some e)
              | Ok final_data =>
                  let json_output := json_dumps final_data in
                  (top ++ [Code json_output "json"; Success "JSON exported above!"], w, None)
              end
        end
      else (top, w, None)
  end.

(** What the user does in one run of the script, and what the network
    would answer to a request. *)
Record user_input : Type := {
  api_key_input : string;
  tcin_input : string;
  fetch_clicked : bool;
  reply : http_outcome;
  selected_tab : string;
  show_optional : bool;
  edit : list field_row → list field_row;
  export_clicked : bool
}.

Definition main (i : user_input) (w : world) : list ui_event * world * option exn :=
  let w := init_session_state w in
  let '(sidebar, w) :=
    draw_sidebar (api_key_input i) (tcin_input i) (fetch_clicked i) (reply i) w in
  if String.eqb (selected_tab i) "Product Details" then
    let '(tab, raised) := draw_product_details_tab (show_optional i) w in
    (draw_header ++ sidebar ++ tab, w, raised)
  else
    let '(tab, w, raised) := draw_annotations_tab (edit i) (export_clicked i) w in
    (draw_header ++ sidebar ++ tab, w, raised).

(** The record stored in the session, as the tabs read it. *)
Definition stored_product (w : world) : option dict :=
  deref w <$> product_data (session w).

Definition sample_response : json :=
  JDict [("product",
          JDict [("tcin", JStr "89603872"); ("title", JStr "Widget");
                 ("main_image", JDict [("link", JStr "http://img/x.jpg")]);
                 ("buybox_winner",
                  JDict [("price", JDict [("currency_symbol", JStr "$");
                                          ("value", JFloat "9.99")])])])].

(** ** Vocabulary of the statements *)

Definition is_str (v : json) : bool :=
  match v with JStr _ => true | _ => false end.

Definition is_list (v : json) : bool :=
  match v with JList _ => true | _ => false end.

(** A fetch that fails or whose answer is not a mapping after unwrapping. *)
Definition fetch_failed (reply : http_outcome) : bool :=
  match reply with
  | Failed _ => true
  | Body j => match unwrap_product j with JDict _ => false | _ => true end
  end.

(** The value the export reads for a field other than [Price], before a
    list is joined. *)
Definition upstream_value (data : dict) (field : string) : json :=
  if String.eqb field "Main Image" then
    match dict_get data "main_image" (JDict []) with
    | JDict m => dict_get m "link" (JStr "N/A")
    | _ => JStr "N/A"
    end
  else dict_get data (mapping_get key_mapping field field) (JStr "N/A").

(** The price of a record is printed exactly when neither [buybox_winner]
    nor its [price] is bound to something that is not a dict. *)
Definition price_shape_ok (data : dict) : bool :=
  match dict_get data "buybox_winner" (JDict []) with
  | JDict b => match dict_get b "price" (JDict []) with JDict _ => true | _ => false end
  | _ => false
  end.

(** Whether the export writes a string for a field. *)
Definition exported_as_string (data : dict) (f : string) : bool :=
  if String.eqb f "Price" then true
  else
    let u := upstream_value data f in
    if String.eqb f "Main Image" then is_str u else is_str u || is_list u.

Definition world_of (r : list ui_event * world * option exn) : world := r.1.2.
Definition events_of (r : list ui_event * world * option exn) : list ui_event := r.1.1.
Definition raised_of (r : list ui_event * world * option exn) : option exn := r.2.

Definition is_code (e : ui_event) : bool :=
  match e with Code _ _ => true | _ => false end.

(** A run in which the user asks for the sample product and for the export. *)
Definition sample_run (key tab : string) : user_input :=
  {| api_key_input := key; tcin_input := "89603872"; fetch_clicked := true;
     reply := Body sample_response; selected_tab := tab; show_optional := false;
     edit := id; export_clicked := true |}.

(** A session over one stored record, with the built-in catalog. *)
Definition world_with (data : dict) : world :=
  {| heap := [data]; cache := ∅; requests := [];
     session := {| product_data := Some 0%nat; api_key := Some "KEY";
                   field_status := Some default_field_status |};
     recorded := ∅; image_error := fun _ => None |}.

(** The key of the record under which a field is looked up first. *)
Definition upstream_key (f : string) : string :=
  if String.eqb f "Price" then "buybox_winner"
  else if String.eqb f "Main Image" then "main_image"
  else mapping_get key_mapping f f.


(** The catalog that a run starts from: the stored one, or the built-in
    rows when the session has none yet. *)
Definition catalog_at_start (w : world) : list field_row :=
  match field_status (session w) with
  | Some rows => rows
  | None => default_field_status
  end.

(** Successive runs of the script, each on the world the previous one left. *)
Definition run_all (inputs : list user_input) (w : world) : world :=
  foldl (fun w i => world_of (main i w)) w inputs.

(** * Properties *)

(** ** Dictionaries *)

Section dict_facts.
Implicit Types (d : dict) (k : string) (v default : json).

Lemma dict_get_absent d k default :
  dict_contains d k = false → dict_get d k default = default.
Proof.
  induction d as [|[k' v'] d IH]; simpl; [done|].
  destruct (String.eqb k' k); [done|]. exact IH.
Qed.

Lemma dict_get_default_irrelevant d k default default' :
  dict_contains d k = true → dict_get d k default = dict_get d k default'.
Proof.
  induction d as [|[k' v'] d IH]; simpl; [done|].
  destruct (String.eqb k' k); [done|]. exact IH.
Qed.

Lemma dict_contains_keys d k : dict_contains d k = true ↔ k ∈ dict_keys d.
Proof.
  induction d as [|[k' v'] d IH]; simpl.
  - split; [done|]. by intros ?%elem_of_nil.
  - rewrite elem_of_cons. destruct (String.eqb_spec k' k) as [->|Hne].
    + split; auto.
    + rewrite IH. split; [auto|]. intros [->|?]; [done|assumption].
Qed.

Lemma dict_set_keys_new d k v :
  dict_contains d k = false → dict_keys (dict_set d k v) = dict_keys d ++ [k].
Proof.
  induction d as [|[k' v'] d IH]; simpl; [done|].
  destruct (String.eqb k' k); [done|]. intros H. simpl. by rewrite IH.
Qed.

Lemma dict_set_keys_old d k v :
  dict_contains d k = true → dict_keys (dict_set d k v) = dict_keys d.
Proof.
  induction d as [|[k' v'] d IH]; simpl; [done|].
  destruct (String.eqb k' k); [done|]. intros H. simpl. by rewrite IH.
Qed.

Lemma dict_set_entries d k v k0 v0 :
  In (k0, v0) (dict_set d k v) → In (k0, v0) d ∨ (k0 = k ∧ v0 = v).
Proof.
  induction d as [|[k' v'] d IH]; simpl.
  - intros [[= <- <-]|[]]. by right.
  - destruct (String.eqb_spec k' k) as [->|Hne]; simpl.
    + intros [[= <- <-]|?]; [by right|]. left. by right.
    + intros [?|H]; [left; by left|]. destruct (IH H) as [?|?]; [left; by right|by right].
Qed.
End dict_facts.

(** ** Key mapping *)

Lemma mapping_get_unmapped (m : list (string * string)) (f : string) :
  existsb (fun kv => String.eqb (fst kv) f) m = false → mapping_get m f f = f.
Proof.
  induction m as [|[k v] m IH]; simpl; [done|].
  destruct (String.eqb k f); [done|]. exact IH.
Qed.

(** ** The price lookup *)

Lemma price_text_returns (data : dict) :
  price_shape_ok data = true → ∃ text, price_text data = Ok text.
Proof.
  unfold price_shape_ok, price_text.
  destruct (dict_get data "buybox_winner" (JDict [])) as [| | | | | |b]; try done.
  cbn. destruct (dict_get b "price" (JDict [])) as [| | | | | |p]; try done.
  intros _. cbn. eauto.
Qed.

Lemma price_text_raises (data : dict) :
  price_shape_ok data = false → ∃ t, price_text data = Raise (AttributeError t "get").
Proof.
  unfold price_shape_ok, price_text.
  destruct (dict_get data "buybox_winner" (JDict [])) as [| | | | | |b]; cbn; eauto.
  destruct (dict_get b "price" (JDict [])) as [| | | | | |p]; cbn; eauto. done.
Qed.

(** Every field but [Price] is projected without an exception. *)
Lemma export_field_value_returns (data : dict) (f : string) :
  f ≠ "Price" → ∃ v, export_field_value data f = Ok v.
Proof.
  intros Hf. unfold export_field_value.
  destruct (String.eqb_spec f "Price") as [->|_]; [done|].
  destruct (String.eqb f "Main Image"); cbn; eauto.
Qed.

Lemma details_lines_agree (data : dict) (f : string) :
  details_line_columns data f = details_line_linear data f.
Proof.
  unfold details_line_columns, details_line_linear.
  destruct (String.eqb_spec f "Main Image") as [->|_]; [done|].
  by destruct (String.eqb f "Price").
Qed.

(** ** Projection *)

(** C1: projecting a field is claimed never to raise, also when
    [buybox_winner] or [price] is bound to a value that is not a mapping.
    The code calls [.get] on whatever [buybox_winner] holds: for the record
    [{"buybox_winner": "sold out"}] the field [Price] raises
    [AttributeError] on the export path, on both display paths and in a
    whole run of either tab; the same happens one level down when [price]
    is not a mapping. *)
Theorem C1_price_lookup_raises :
  export_field_value [("buybox_winner", JStr "sold out")] "Price"
    = Raise (AttributeError "str" "get") ∧
  details_line_linear [("buybox_winner", JStr "sold out")] "Price"
    = Raise (AttributeError "str" "get") ∧
  details_line_columns [("buybox_winner", JStr "sold out")] "Price"
    = Raise (AttributeError "str" "get") ∧
  export_field_value [("buybox_winner", JDict [("price", JInt 5)])] "Price"
    = Raise (AttributeError "int" "get") ∧
  raised_of (draw_annotations_tab id true (world_with [("buybox_winner", JStr "sold out")]))
    = Some (AttributeError "str" "get") ∧
  draw_product_details_tab false (world_with [("buybox_winner", JStr "sold out")])
    = ([Subheader "Product Details"; Markdown "### Product Information";
        Markdown "**TCIN:** N/A"; Markdown "**Product Title:** N/A";
        Markdown "**Brand:** N/A"],
       Some (AttributeError "str" "get")).
Proof. repeat split; vm_compute; reflexivity. Qed.

(** C4 as stated fails: a field outside the key mapping is looked up under
    its own name, so a record that has that key yields its value. *)
Lemma C4_counterexample :
  in_key_mapping "rating" = false ∧ "rating" ≠ "Price" ∧ "rating" ≠ "Main Image" ∧
  export_field_value [("rating", JFloat "4.5")] "rating" = Ok (JFloat "4.5") ∧
  export_field_value [("rating", JFloat "4.5")] "rating" ≠ Ok (JStr "N/A") ∧
  details_line_linear [("rating", JFloat "4.5")] "rating"
    = Ok (Some (Markdown "**rating:** 4.5")).
Proof. repeat split; try done. Qed.

(** C4 (amended): a field that is outside the key mapping and is neither
    [Price] nor [Main Image] is read from the record under its own name;
    the projection is the "N/A" sentinel when the record has no such key,
    and otherwise the value under that key (a list joined). *)
Theorem C4_unmapped_field (data : dict) (f : string) :
  in_key_mapping f = false → f ≠ "Price" → f ≠ "Main Image" →
  export_field_value data f = Ok (flatten_list (dict_get data f (JStr "N/A"))) ∧
  details_line_linear data f
    = Ok (Some (Markdown ("**" +:+ f +:+ ":** "
                            +:+ py_str (flatten_list (dict_get data f (JStr "N/A")))))) ∧
  details_line_columns data f = details_line_linear data f ∧
  (dict_contains data f = false →
     export_field_value data f = Ok (JStr "N/A") ∧
     details_line_linear data f = Ok (Some (Markdown ("**" +:+ f +:+ ":** N/A")))).
Proof.
  intros Hmap Hp Hi.
  assert (Hval : mapped_value data f = flatten_list (dict_get data f (JStr "N/A"))).
  { unfold mapped_value. by rewrite (mapping_get_unmapped key_mapping f Hmap). }
  assert (He : export_field_value data f = Ok (mapped_value data f)).
  { unfold export_field_value.
    destruct (String.eqb_spec f "Price") as [->|_]; [done|].
    by destruct (String.eqb_spec f "Main Image") as [->|_]. }
  assert (Hl : details_line_linear data f = Ok (Some (mapped_line data f))).
  { unfold details_line_linear.
    destruct (String.eqb_spec f "Price") as [->|_]; [done|].
    by destruct (String.eqb_spec f "Main Image") as [->|_]. }
  rewrite He, Hl. unfold mapped_line. rewrite Hval.
  split; [done|]. split; [done|]. split.
  - rewrite details_lines_agree, Hl. unfold mapped_line. by rewrite Hval.
  - intros Habs. by rewrite (dict_get_absent _ _ _ Habs).
Qed.

Lemma C4_unmapped_field_witness :
  export_field_value [("tcin", JStr "1")] "Colour" = Ok (JStr "N/A") ∧
  details_line_linear [("tcin", JStr "1")] "Colour" = Ok (Some (Markdown "**Colour:** N/A")).
Proof.
  refine (proj2 (proj2 (proj2
    (C4_unmapped_field [("tcin", JStr "1")] "Colour" eq_refl _ _))) eq_refl);
    intros [=].
Defined.

(** C9: unwrapping the sample response and projecting TCIN, Product Title,
    Price and Main Image gives exactly the four expected strings, in that
    order; the price 9.99 is printed after the currency symbol. *)
Theorem C9_sample_projection :
  ∃ data,
    fetch_uncached (Body sample_response) = (data, []) ∧
    export_loop data ["TCIN"; "Product Title"; "Price"; "Main Image"] []
      = Ok [ ("TCIN", JStr "89603872"); ("Product Title", JStr "Widget");
             ("Price", JStr "$9.99"); ("Main Image", JStr "http://img/x.jpg") ].
Proof. eexists. split; reflexivity. Qed.

(** ** The export document *)

Lemma export_field_value_upstream (data : dict) (f : string) (v : json) :
  export_field_value data f = Ok v →
  is_str v = exported_as_string data f ∧
  (f ≠ "Price" → is_list (upstream_value data f) = false ∨ f = "Main Image" →
   v = upstream_value data f).
Proof.
  unfold export_field_value, exported_as_string, upstream_value, mapped_value.
  destruct (String.eqb_spec f "Price") as [->|Hp].
  - destruct (price_text data) as [text|e]; cbn; [|done].
    intros [= <-]. split; [done|]. by intros ?.
  - destruct (String.eqb_spec f "Main Image") as [->|Hi]; cbv [mret result_ret].
    + intros [= <-]. split; [|done].
      by destruct (dict_get data "main_image" (JDict [])).
    + generalize (dict_get data (mapping_get key_mapping f f) (JStr "N/A")).
      intros u [= <-]. split; [by destruct u|].
      intros _ [Hl|?]; [|done]. by destruct u.
Qed.

Lemma export_loop_entries (data : dict) (fields : list string) :
  ∀ (acc final_data : dict),
    export_loop data fields acc = Ok final_data →
    ∀ f v, In (f, v) final_data →
           In (f, v) acc ∨ (In f fields ∧ export_field_value data f = Ok v).
Proof.
  induction fields as [|f0 fields IH]; intros acc final_data; simpl.
  - intros [= <-] f v Hin. by left.
  - destruct (export_field_value data f0) as [v0|e] eqn:E0; cbn; [|done].
    intros Hloop f v Hin.
    destruct (IH _ _ Hloop f v Hin) as [Hacc|[Hf Hv]].
    + destruct (dict_set_entries _ _ _ _ _ Hacc) as [?|[-> ->]]; [by left|].
      right. split; [by left|done].
    + right. split; [by right|done].
Qed.

Lemma export_loop_keys (data : dict) (fields : list string) :
  ∀ (acc final_data : dict),
    export_loop data fields acc = Ok final_data →
    NoDup (dict_keys acc ++ fields) →
    dict_keys final_data = dict_keys acc ++ fields.
Proof.
  induction fields as [|f0 fields IH]; intros acc final_data; simpl.
  - intros [= <-] _. by rewrite app_nil_r.
  - destruct (export_field_value data f0) as [v0|e] eqn:E0; cbn; [|done].
    intros Hloop Hnd.
    assert (Hnew : dict_contains acc f0 = false).
    { destruct (dict_contains acc f0) eqn:Hc; [|done].
      apply dict_contains_keys in Hc. apply NoDup_app in Hnd as (_ & Hdisj & _).
      destruct (Hdisj _ Hc). by left. }
    rewrite (IH _ _ Hloop); rewrite (dict_set_keys_new _ _ _ Hnew), <- ?app_assoc; done.
Qed.

(** When the export returns, the keys of the document are the required
    names of a catalog without repeated names, in catalog order. *)
Lemma export_keys_in_catalog_order (data : dict) (rows : list field_row) (final_data : dict) :
  build_final_data data rows = Ok final_data →
  NoDup (required_names rows) →
  dict_keys final_data = required_names rows.
Proof. intros H Hnd. by apply (export_loop_keys data _ [] final_data H). Qed.

(** The export returns whenever the price can be read. *)
Lemma export_loop_returns (data : dict) (fields : list string) :
  price_shape_ok data = true →
  ∀ acc, ∃ final_data, export_loop data fields acc = Ok final_data.
Proof.
  intros Hp. induction fields as [|f0 fields IH]; intros acc; simpl; [eauto|].
  assert (∃ v0, export_field_value data f0 = Ok v0) as [v0 ->].
  { destruct (String.eqb_spec f0 "Price") as [->|Hne].
    - unfold export_field_value. cbn.
      destruct (price_text_returns data Hp) as [text ->]. cbn. eauto.
    - by apply export_field_value_returns. }
  cbn. apply IH.
Qed.

(** The display loops finish whenever the price can be read. *)
Lemma details_loop_returns (data : dict) (fields : list string) :
  price_shape_ok data = true →
  (details_loop (details_line_linear data) fields).2 = None ∧
  (details_loop (details_line_columns data) fields).2 = None.
Proof.
  intros Hp.
  assert (H : ∀ line, (∀ f, line f = details_line_linear data f) →
                      (details_loop line fields).2 = None).
  { intros line Hline. induction fields as [|f0 fields IH]; simpl; [done|].
    rewrite Hline. unfold details_line_linear, price_line.
    destruct (price_text_returns data Hp) as [text ->].
    destruct (String.eqb f0 "Price"); [|destruct (String.eqb f0 "Main Image")]; cbn;
      by destruct (details_loop line fields). }
  split; apply H; [done|apply details_lines_agree].
Qed.

(** C2 as stated fails: a number in the record is exported as a number,
    not as a string. *)
Lemma C2_counterexample :
  ¬ (∀ final_data,
       build_final_data [("ratings_total", JInt 1250)]
                        [{| field := "Total Ratings"; required := true |}]
         = Ok final_data →
       ∀ f v, In (f, v) final_data → is_str v = true).
Proof.
  intros H. specialize (H [("Total Ratings", JInt 1250)] eq_refl "Total Ratings" (JInt 1250)).
  discriminate H. by left.
Qed.

Lemma export_field_value_exact (data : dict) (f : string) (v : json) :
  export_field_value data f = Ok v →
  (f = "Price" → ∃ text, price_text data = Ok text ∧ v = JStr text) ∧
  (f ≠ "Price" → f ≠ "Main Image" →
   ∀ l, upstream_value data f = JList l → v = JStr (join ", " (map py_str l))) ∧
  (f ≠ "Price" → dict_contains data (upstream_key f) = false → v = JStr "N/A").
Proof.
  unfold export_field_value, upstream_value, upstream_key, mapped_value.
  destruct (String.eqb_spec f "Price") as [->|Hp].
  - destruct (price_text data) as [text|e]; cbn; [|done].
    intros [= <-]. split; [eauto|]. by split.
  - destruct (String.eqb_spec f "Main Image") as [->|Hi]; cbv [mret result_ret].
    + intros [= <-]. split; [done|]. split; [done|].
      intros _ Habs. cbv iota in Habs. by rewrite (dict_get_absent _ _ _ Habs).
    + assert (Habs : dict_contains data (mapping_get key_mapping f f) = false →
                     dict_get data (mapping_get key_mapping f f) (JStr "N/A") = JStr "N/A")
        by apply dict_get_absent.
      cbv beta iota zeta. revert Habs.
      generalize (dict_get data (mapping_get key_mapping f f) (JStr "N/A")).
      intros u Habs [= <-]. split; [done|]. split.
      * intros _ _ l ->. done.
      * intros _ H. by rewrite (Habs H).
Qed.

(** C2 (amended): in the exported document every entry belongs to a
    required field; the value of [Price] is a string, the currency symbol
    followed by the value; the value of any other field is a string
    exactly when the value read from the record is missing (then it is the
    sentinel), a string or, except for [Main Image], a list, which is
    exported as its elements printed by [str] and joined with a comma and
    a space; a number, a boolean, null or a mapping is written to the
    document as it is. *)
Theorem C2_exported_values (data : dict) (rows : list field_row) (final_data : dict) :
  build_final_data data rows = Ok final_data →
  ∀ f v, In (f, v) final_data →
    In f (required_names rows) ∧
    is_str v = exported_as_string data f ∧
    (f ≠ "Price" → is_list (upstream_value data f) = false ∨ f = "Main Image" →
     v = upstream_value data f) ∧
    (f = "Price" → ∃ text, price_text data = Ok text ∧ v = JStr text) ∧
    (f ≠ "Price" → f ≠ "Main Image" →
     ∀ l, upstream_value data f = JList l → v = JStr (join ", " (map py_str l))) ∧
    (f ≠ "Price" → dict_contains data (upstream_key f) = false → v = JStr "N/A").
Proof.
  intros Hb f v Hin.
  destruct (export_loop_entries _ _ _ _ Hb f v Hin) as [[]|[Hf Hv]].
  split; [done|].
  destruct (export_field_value_upstream _ _ _ Hv) as [H1 H2].
  split; [done|]. split; [done|]. by apply export_field_value_exact.
Qed.

Lemma C2_exported_values_witness :
  In "Feature Bullets"
     (required_names [ {| field := "Feature Bullets"; required := true |};
                       {| field := "Total Ratings"; required := true |};
                       {| field := "UPC"; required := true |} ]) ∧
  is_str (JStr "Soft, 2, None") = true ∧
  JStr "Soft, 2, None" = JStr (join ", " (map py_str [JStr "Soft"; JInt 2; JNull])) ∧
  is_str (JInt 1250) = false ∧
  JInt 1250 = upstream_value
                [("feature_bullets", JList [JStr "Soft"; JInt 2; JNull]);
                 ("ratings_total", JInt 1250)] "Total Ratings" ∧
  JStr "N/A" = JStr "N/A".
Proof.
  pose proof (C2_exported_values
                [("feature_bullets", JList [JStr "Soft"; JInt 2; JNull]);
                 ("ratings_total", JInt 1250)]
                [ {| field := "Feature Bullets"; required := true |};
                  {| field := "Total Ratings"; required := true |};
                  {| field := "UPC"; required := true |} ]
                [("Feature Bullets", JStr "Soft, 2, None"); ("Total Ratings", JInt 1250);
                 ("UPC", JStr "N/A")]
                eq_refl) as H.
  destruct (H "Feature Bullets" (JStr "Soft, 2, None") (or_introl eq_refl))
    as (H1 & H2 & _ & _ & H5 & _).
  destruct (H "Total Ratings" (JInt 1250) (or_intror (or_introl eq_refl)))
    as (_ & G2 & G3 & _).
  destruct (H "UPC" (JStr "N/A") (or_intror (or_intror (or_introl eq_refl))))
    as (_ & _ & _ & _ & _ & K6).
  split; [exact H1|]. split; [exact H2|].
  split; [exact (H5 ltac:(intros [=]) ltac:(intros [=]) _ eq_refl)|].
  split; [exact G2|].
  split; [exact (G3 ltac:(intros [=]) (or_introl eq_refl))|].
  exact (K6 ltac:(intros [=]) eq_refl).
Defined.

(** C6: exporting a non-empty record is claimed to give a document whose
    keys are the required names.  For the record
    [{"buybox_winner": "sold out"}] and the built-in catalog the export
    raises [AttributeError] in the price lookup and shows no document. *)
Theorem C6_export_raises :
  dict_truthy [("buybox_winner", JStr "sold out")] = true ∧
  build_final_data [("buybox_winner", JStr "sold out")] default_field_status
    = Raise (AttributeError "str" "get") ∧
  raised_of (draw_annotations_tab id true (world_with [("buybox_winner", JStr "sold out")]))
    = Some (AttributeError "str" "get") ∧
  existsb is_code
    (events_of (draw_annotations_tab id true (world_with [("buybox_winner", JStr "sold out")])))
    = false.
Proof. repeat split; vm_compute; reflexivity. Qed.

(** ** Export without data *)

Lemma set_field_status_same (w : world) (rows : list field_row) :
  field_status (session w) = Some rows →
  set_session (set_field_status rows (session w)) w = w.
Proof. destruct w as [h c r [pd ak fs]]; simpl. by intros ->. Qed.

(** C7: when the stored record is empty, a run of the annotations tab
    with the export button pressed ends with the warning that there is no
    data to export, shows no JSON, raises nothing, and leaves the world as
    the same run without the button leaves it: the product record is
    untouched and the catalog is what the table holds; a table that holds
    the stored catalog leaves the whole world unchanged. *)
Theorem C7_export_without_data (edit : list field_row → list field_row) (w : world)
    (l : nat) (rows : list field_row) :
  field_status (session w) = Some rows →
  product_data (session w) = Some l →
  deref w l = [] →
  let run := draw_annotations_tab edit true w in
  last (events_of run) = Some (Warning "No product data to export. Please fetch data first.") ∧
  existsb is_code (events_of run) = false ∧
  raised_of run = None ∧
  world_of run = world_of (draw_annotations_tab edit false w) ∧
  stored_product (world_of run) = stored_product w ∧
  product_data (session (world_of run)) = product_data (session w) ∧
  api_key (session (world_of run)) = api_key (session w) ∧
  field_status (session (world_of run)) = Some (edit rows) ∧
  (edit rows = rows → world_of run = w).
Proof.
  intros Hfs Hpd Hempty run. subst run.
  destruct w as [h c r [pd ak fs]]. simpl in Hfs, Hpd. subst pd fs.
  unfold deref in Hempty. simpl in Hempty.
  unfold draw_annotations_tab, stored_product, deref. simpl. rewrite Hempty. simpl.
  repeat split; try done.
  - by rewrite Hempty.
  - by intros ->.
Qed.

Lemma C7_export_without_data_witness :
  last (events_of (draw_annotations_tab id true (world_with [])))
    = Some (Warning "No product data to export. Please fetch data first.") ∧
  world_of (draw_annotations_tab id true (world_with [])) = world_with [].
Proof.
  pose proof (C7_export_without_data id (world_with []) 0%nat default_field_status
                eq_refl eq_refl eq_refl) as (H1 & _ & _ & _ & _ & _ & _ & _ & H9).
  split; [exact H1 | exact (H9 eq_refl)].
Defined.

(** ** The fetch cache *)

Section fetch_facts.
Implicit Types (w : world) (api tcin : string) (reply : http_outcome).

Lemma fetch_hit api tcin reply w l :
  cache w !! (api, tcin) = Some l →
  fetch_product_data_from_api api tcin reply w = (l, replayed w (api, tcin), w).
Proof. unfold fetch_product_data_from_api. by intros ->. Qed.

Lemma fetch_miss api tcin reply w :
  cache w !! (api, tcin) = None →
  fetch_product_data_from_api api tcin reply w
  = (length (heap w), (fetch_uncached reply).2,
     {| heap := heap w ++ [(fetch_uncached reply).1];
        cache := <[(api, tcin) := length (heap w)]> (cache w);
        requests := requests w ++ [(api, tcin)];
        session := session w;
        recorded := <[(api, tcin) := (fetch_uncached reply).2]> (recorded w);
        image_error := image_error w |}).
Proof.
  unfold fetch_product_data_from_api. intros ->. by destruct (fetch_uncached reply).
Qed.

(** After a call the cache replays, for its arguments, the messages the
    call showed. *)
Lemma fetch_replay api tcin reply w l events w' :
  fetch_product_data_from_api api tcin reply w = (l, events, w') →
  replayed w' (api, tcin) = events ∧ image_error w' = image_error w.
Proof.
  intros Hf. destruct (cache w !! (api, tcin)) as [l'|] eqn:E.
  - rewrite (fetch_hit _ _ _ _ _ E) in Hf. by injection Hf as <- <- <-.
  - rewrite (fetch_miss _ _ _ _ E) in Hf. injection Hf as <- <- <-.
    unfold replayed. simpl. by rewrite lookup_insert_eq.
Qed.

(** A failed or malformed answer gives the empty record. *)
Lemma fetch_uncached_failed reply :
  fetch_failed reply = true → (fetch_uncached reply).1 = [].
Proof.
  destruct reply as [j|[]]; simpl; try done.
  by destruct (unwrap_product j).
Qed.

Lemma fetch_uncached_body j d :
  unwrap_product j = JDict d → fetch_uncached (Body j) = (d, []).
Proof. simpl. by intros ->. Qed.

(** What every call establishes: the result is cached under its
    arguments and allocated, the session and the older objects are as
    before, and no entry of the cache is lost. *)
Lemma fetch_post api tcin reply w l events w' :
  wf_world w →
  fetch_product_data_from_api api tcin reply w = (l, events, w') →
  cache w' !! (api, tcin) = Some l ∧
  (l < length (heap w'))%nat ∧
  wf_world w' ∧
  session w' = session w ∧
  (∀ l0, (l0 < length (heap w))%nat → deref w' l0 = deref w l0) ∧
  (∀ k l0, cache w !! k = Some l0 → cache w' !! k = Some l0).
Proof.
  intros [Hc Hs] Hf.
  destruct (cache w !! (api, tcin)) as [l'|] eqn:E.
  - rewrite (fetch_hit _ _ _ _ _ E) in Hf. injection Hf as <- <- <-.
    repeat split; eauto.
  - rewrite (fetch_miss _ _ _ _ E) in Hf. injection Hf as <- <- <-. simpl.
    rewrite length_app. simpl. repeat split.
    + by rewrite lookup_insert_eq.
    + lia.
    + intros k l0. simpl. rewrite length_app. simpl.
      rewrite lookup_insert. case_decide; [intros [= <-]; lia|].
      intros H0%Hc. lia.
    + intros l0 H0%Hs. simpl. rewrite length_app. simpl. lia.
    + intros l0 Hl0. unfold deref. simpl. by apply lookup_total_app_l.
    + intros k l0 Hk. rewrite lookup_insert_ne; [done|]. intros <-. congruence.
Qed.

Lemma deref_setitem w l k v :
  (l < length (heap w))%nat → deref (setitem l k v w) l = dict_set (deref w l) k v.
Proof.
  intros Hl. unfold deref, setitem. simpl.
  by rewrite list_lookup_total_alter_eq.
Qed.
End fetch_facts.

(** ** Session initialisation *)

Lemma init_session_state_idempotent (w : world) :
  init_session_state (init_session_state w) = init_session_state w.
Proof. by destruct w as [h c r [[l|] [k|] [rows|]]]. Qed.

Lemma init_session_state_initialised (w : world) :
  ∃ l k rows,
    session (init_session_state w)
    = {| product_data := Some l; api_key := Some k; field_status := Some rows |}.
Proof. destruct w as [h c r [[l|] [k|] [rows|]]]; simpl; eauto. Qed.

Lemma init_session_state_frame (w : world) :
  cache (init_session_state w) = cache w ∧ requests (init_session_state w) = requests w.
Proof. by destruct w as [h c r [[l|] [k|] [rows|]]]. Qed.

Lemma init_session_state_wf (w : world) : wf_world w → wf_world (init_session_state w).
Proof.
  destruct w as [h c r [[l|] [k|] [rows|]]]; intros [Hc Hs]; (split; [intros k0 l0|intros l0]);
    simpl in *; rewrite ?length_app; simpl;
    try (intros H0%Hc; lia); try (intros H0%Hs; lia); try (intros [= <-]; lia).
Qed.

(** C10: initialising an initialised session changes nothing, a key that
    is already present keeps its value (the product record, the
    credential and the catalog with its toggles), and a session that holds
    all three is left exactly as it is. *)
Theorem C10_init_idempotent (w : world) :
  init_session_state (init_session_state w) = init_session_state w ∧
  (∀ l, product_data (session w) = Some l →
        product_data (session (init_session_state w)) = Some l ∧
        heap (init_session_state w) = heap w ∧
        stored_product (init_session_state w) = stored_product w) ∧
  (∀ k, api_key (session w) = Some k → api_key (session (init_session_state w)) = Some k) ∧
  (∀ rows, field_status (session w) = Some rows →
           field_status (session (init_session_state w)) = Some rows) ∧
  (∀ l k rows,
     session w = {| product_data := Some l; api_key := Some k; field_status := Some rows |} →
     init_session_state w = w).
Proof.
  split; [apply init_session_state_idempotent|].
  destruct w as [h c r [[l|] [k|] [rows|]]]; simpl; repeat split; try done;
    intros; simplify_eq; done.
Qed.

Lemma C10_init_idempotent_witness :
  init_session_state (world_with [("tcin", JStr "1")]) = world_with [("tcin", JStr "1")].
Proof.
  exact (proj2 (proj2 (proj2 (proj2 (C10_init_idempotent (world_with [("tcin", JStr "1")])))))
           0%nat "KEY" default_field_status eq_refl).
Defined.

(** ** The sidebar *)

Section sidebar_facts.
Implicit Types (w : world) (api tcin : string) (reply : http_outcome).

Lemma set_api_key_wf w api :
  wf_world w → wf_world (set_session (set_api_key api (session w)) w).
Proof. by intros [Hc Hs]. Qed.

Lemma draw_sidebar_fetch api tcin reply w l events w1 :
  str_truthy api = true →
  fetch_product_data_from_api api tcin reply (set_session (set_api_key api (session w)) w)
    = (l, events, w1) →
  draw_sidebar api tcin true reply w
  = if dict_truthy (deref w1 l) then
      ([Header "API Credentials"; Header "Search by TCIN"] ++ events,
       set_session (set_product_data l (session w1)) w1)
    else
      ([Header "API Credentials"; Header "Search by TCIN"] ++ events
         ++ [Warning "No product data fetched. Check the TCIN or API availability."], w1).
Proof. intros Ha Hf. unfold draw_sidebar. rewrite Ha. simpl. by rewrite Hf. Qed.

(** A run of the sidebar keeps the world well formed, keeps the cache
    entries and the objects it found. *)
Lemma draw_sidebar_post api tcin clicked reply w :
  wf_world w →
  wf_world (draw_sidebar api tcin clicked reply w).2 ∧
  (∀ k l, cache w !! k = Some l → cache (draw_sidebar api tcin clicked reply w).2 !! k = Some l) ∧
  (∀ l0, (l0 < length (heap w))%nat →
         deref (draw_sidebar api tcin clicked reply w).2 l0 = deref w l0).
Proof.
  intros Hwf. pose proof (set_api_key_wf w api Hwf) as Hwf0.
  destruct clicked; [|by unfold draw_sidebar].
  destruct (str_truthy api) eqn:Ha; [|by unfold draw_sidebar; rewrite Ha].
  destruct (fetch_product_data_from_api api tcin reply
              (set_session (set_api_key api (session w)) w)) as [[l events] w1] eqn:Hf.
  rewrite (draw_sidebar_fetch _ _ _ _ _ _ _ Ha Hf).
  destruct (fetch_post _ _ _ _ _ _ _ Hwf0 Hf) as (Hc & Hl & [Hwc Hws] & Hs & Hd & Hk).
  destruct (dict_truthy (deref w1 l)); simpl; repeat split; auto.
  intros l0 [= <-]. exact Hl.
Qed.
End sidebar_facts.

(** C3 as stated fails: a fetch that times out after a successful one
    leaves the first record in the session. *)
Lemma C3_counterexample :
  let w1 := (draw_sidebar "KEY" "1" true (Body (JDict [("product", JDict [("tcin", JStr "1")])]))
               (init_session_state empty_world)).2 in
  let w2 := (draw_sidebar "KEY" "2" true (Failed Timeout) w1).2 in
  fetch_failed (Failed Timeout) = true ∧
  stored_product w2 = Some [("tcin", JStr "1")] ∧
  stored_product w2 ≠ Some [].
Proof.
  assert (H : stored_product
                (draw_sidebar "KEY" "2" true (Failed Timeout)
                   (draw_sidebar "KEY" "1" true
                      (Body (JDict [("product", JDict [("tcin", JStr "1")])]))
                      (init_session_state empty_world)).2).2
              = Some [("tcin", JStr "1")]) by (vm_compute; reflexivity).
  cbv zeta. rewrite H. repeat split. discriminate.
Qed.

(** C3 (amended): a fetch that is sent and fails, or whose answer is
    malformed or an empty mapping, returns an empty record and leaves the
    stored record as it was; a fetch that is sent and answered with a
    non-empty mapping makes that mapping the stored record, as a whole. *)
Theorem C3_fetch_and_store (api tcin : string) (reply : http_outcome) (w : world) :
  wf_world w → str_truthy api = true → cache w !! (api, tcin) = None →
  requests (draw_sidebar api tcin true reply w).2 = requests w ++ [(api, tcin)] ∧
  (fetch_failed reply = true →
     (fetch_uncached reply).1 = [] ∧
     stored_product (draw_sidebar api tcin true reply w).2 = stored_product w) ∧
  (∀ j, reply = Body j → unwrap_product j = JDict [] →
     stored_product (draw_sidebar api tcin true reply w).2 = stored_product w) ∧
  (∀ j d, reply = Body j → unwrap_product j = JDict d → d ≠ [] →
     stored_product (draw_sidebar api tcin true reply w).2 = Some d).
Proof.
  intros [Hwc Hws] Ha Hmiss.
  pose proof (fetch_miss api tcin reply (set_session (set_api_key api (session w)) w) Hmiss)
    as Hf.
  rewrite (draw_sidebar_fetch _ _ _ _ _ _ _ Ha Hf). clear Hf.
  set (d0 := (fetch_uncached reply).1). simpl length. simpl heap. simpl cache.
  simpl requests. simpl session.
  set (w1 := {| heap := heap w ++ [d0];
                cache := <[(api, tcin) := length (heap w)]> (cache w);
                requests := requests w ++ [(api, tcin)];
                session := set_api_key api (session w);
                recorded := _; image_error := _ |}).
  assert (Hnew : deref w1 (length (heap w)) = d0).
  { unfold deref. simpl. by apply list_lookup_total_middle. }
  assert (Hold : stored_product w1 = stored_product w).
  { unfold stored_product. simpl. destruct (product_data (session w)) as [l0|] eqn:E; [|done].
    simpl. f_equal. unfold deref. simpl. apply lookup_total_app_l. by apply Hws. }
  rewrite Hnew.
  destruct (dict_truthy d0) eqn:Ht; simpl.
  - split; [done|]. split; [|split].
    + intros Hfail. unfold d0 in Ht. rewrite (fetch_uncached_failed _ Hfail) in Ht. done.
    + intros j -> Hj. subst d0. rewrite (fetch_uncached_body _ _ Hj) in Ht. done.
    + intros j d -> Hj Hd. unfold stored_product. simpl. f_equal.
      change (deref w1 (length (heap w)) = d). rewrite Hnew.
      subst d0. by rewrite (fetch_uncached_body _ _ Hj).
  - split; [done|]. split; [|split].
    + intros Hfail. split; [by apply fetch_uncached_failed|done].
    + done.
    + intros j d -> Hj Hd. subst d0. rewrite (fetch_uncached_body _ _ Hj) in Ht.
      by destruct d.
Qed.

Lemma world_with_wf (data : dict) : wf_world (world_with data).
Proof.
  split; simpl.
  - intros k l. by rewrite lookup_empty.
  - intros l [= <-]. lia.
Qed.

Lemma C3_fetch_and_store_witness :
  stored_product
    (draw_sidebar "KEY" "2" true (Failed Timeout) (world_with [("tcin", JStr "1")])).2
  = stored_product (world_with [("tcin", JStr "1")]).
Proof.
  exact (proj2 (proj1 (proj2
           (C3_fetch_and_store "KEY" "2" (Failed Timeout) (world_with [("tcin", JStr "1")])
              (world_with_wf _) eq_refl eq_refl)) eq_refl)).
Defined.

(** ** A whole run *)

Section run_facts.
Implicit Types (w : world) (i : user_input).

Lemma draw_annotations_tab_frame edit clicked w :
  heap (world_of (draw_annotations_tab edit clicked w)) = heap w ∧
  cache (world_of (draw_annotations_tab edit clicked w)) = cache w ∧
  requests (world_of (draw_annotations_tab edit clicked w)) = requests w ∧
  product_data (session (world_of (draw_annotations_tab edit clicked w)))
    = product_data (session w).
Proof.
  destruct w as [h c r [pd ak [rows|]]]; [|done].
  destruct clicked; [|done].
  destruct pd as [l|]; [|done].
  unfold draw_annotations_tab, world_of. simpl.
  destruct (negb _); [done|]. by destruct (build_final_data _ _).
Qed.

Lemma main_world i w :
  world_of (main i w)
  = let w1 := (draw_sidebar (api_key_input i) (tcin_input i) (fetch_clicked i) (reply i)
                 (init_session_state w)).2 in
    if String.eqb (selected_tab i) "Product Details" then w1
    else world_of (draw_annotations_tab (edit i) (export_clicked i) w1).
Proof.
  unfold main.
  destruct (draw_sidebar _ _ _ _ _) as [sidebar w1]. simpl.
  destruct (String.eqb _ _).
  - by destruct (draw_product_details_tab _ _).
  - by destruct (draw_annotations_tab _ _ _) as [[? ?] ?].
Qed.

(** A run of the script keeps the world well formed, never drops an
    entry of the cache and never changes an object it found. *)
Lemma main_post i w :
  wf_world w →
  wf_world (world_of (main i w)) ∧
  (∀ k l, cache w !! k = Some l → cache (world_of (main i w)) !! k = Some l) ∧
  (∀ l0, (l0 < length (heap w))%nat → deref (world_of (main i w)) l0 = deref w l0).
Proof.
  intros Hwf. rewrite main_world. cbv zeta.
  pose proof (init_session_state_wf w Hwf) as Hwf1.
  destruct (init_session_state_frame w) as [Hc1 _].
  assert (Hh1 : ∀ l0, (l0 < length (heap w))%nat →
                      (l0 < length (heap (init_session_state w)))%nat ∧
                      deref (init_session_state w) l0 = deref w l0).
  { intros l0 Hl0. destruct w as [h c r [[l|] [k|] [rows|]]]; simpl in *; try done;
      unfold deref; simpl; rewrite length_app; simpl;
      (split; [lia|by apply lookup_total_app_l]). }
  destruct (draw_sidebar_post (api_key_input i) (tcin_input i) (fetch_clicked i) (reply i)
              _ Hwf1) as ([Hwc Hws] & Hk & Hd).
  set (w1 := (draw_sidebar _ _ _ _ _).2) in *.
  assert (Hgoal : wf_world w1 ∧
            (∀ k l, cache w !! k = Some l → cache w1 !! k = Some l) ∧
            (∀ l0, (l0 < length (heap w))%nat → deref w1 l0 = deref w l0)).
  { split; [done|]. split.
    - intros k l Hkl. apply Hk. by rewrite Hc1.
    - intros l0 Hl0. destruct (Hh1 l0 Hl0) as [Hlt <-]. by apply Hd. }
  destruct (String.eqb _ _); [exact Hgoal|].
  destruct (draw_annotations_tab_frame (edit i) (export_clicked i) w1) as (Eh & Ec & _ & Ep).
  destruct Hgoal as (_ & Hk' & Hd').
  split; [|split].
  - split; [intros k l|intros l]; rewrite ?Eh, ?Ec, ?Ep; [apply Hwc|apply Hws].
  - intros k l Hkl. rewrite Ec. auto.
  - intros l0 Hl0. unfold deref. rewrite Eh. by apply Hd'.
Qed.
End run_facts.

(** C5 as stated fails: after one caller changes the record it was given,
    the next call with the same credential and identifier receives the
    changed record. *)
Lemma C5_counterexample :
  let reply := Body (JDict [("product", JDict [("tcin", JStr "1")])]) in
  let '(l1, _, w1) := fetch_product_data_from_api "KEY" "1" reply empty_world in
  let '(l2, _, w3) :=
    fetch_product_data_from_api "KEY" "1" reply (setitem l1 "tcin" (JStr "changed") w1) in
  deref w1 l1 = [("tcin", JStr "1")] ∧
  deref w3 l2 = [("tcin", JStr "changed")] ∧
  deref w3 l2 ≠ deref w1 l1.
Proof. vm_compute. repeat split. discriminate. Qed.

(** C5 (amended): the result is memoized per credential and identifier
    for the life of the process: once a call has returned, a later call
    with the same pair sends no request, shows again the messages that the
    first call showed and returns the cached object itself, and no run of
    the script drops the entry.  The object is shared, not copied: what
    one caller writes into a returned record is what the next call with
    the same pair returns. *)
Theorem C5_cached_object_is_shared (api tcin : string) (r1 r2 : http_outcome)
    (k : string) (v : json) (w : world) (l1 : nat) (events1 : list ui_event) (w1 : world) :
  wf_world w →
  fetch_product_data_from_api api tcin r1 w = (l1, events1, w1) →
  fetch_product_data_from_api api tcin r2 w1 = (l1, events1, w1) ∧
  fetch_product_data_from_api api tcin r2 (setitem l1 k v w1)
    = (l1, events1, setitem l1 k v w1) ∧
  requests w1 = (if bool_decide (cache w !! (api, tcin) = None)
                 then requests w ++ [(api, tcin)] else requests w) ∧
  requests (setitem l1 k v w1) = requests w1 ∧
  deref (setitem l1 k v w1) l1 = dict_set (deref w1 l1) k v ∧
  (∀ i, cache (world_of (main i w1)) !! (api, tcin) = Some l1).
Proof.
  intros Hwf Hf.
  destruct (fetch_post _ _ _ _ _ _ _ Hwf Hf) as (Hc & Hl & Hwf1 & _).
  destruct (fetch_replay _ _ _ _ _ _ _ Hf) as [Hr _].
  split; [by rewrite (fetch_hit _ _ r2 _ _ Hc), Hr|].
  split; [by rewrite (fetch_hit _ _ r2 (setitem l1 k v w1) _ Hc); unfold replayed in *;
            simpl; rewrite Hr|].
  split.
  { destruct (cache w !! (api, tcin)) as [l'|] eqn:E.
    - rewrite (fetch_hit _ _ _ _ _ E) in Hf. injection Hf as <- <- <-.
      by rewrite bool_decide_eq_false_2.
    - rewrite (fetch_miss _ _ _ _ E) in Hf. injection Hf as <- <- <-.
      by rewrite bool_decide_eq_true_2. }
  split; [done|].
  split; [by apply deref_setitem|].
  intros i. by apply (main_post i w1 Hwf1).
Qed.

Lemma C5_cached_object_is_shared_witness :
  deref (setitem 1%nat "tcin" (JStr "changed")
           (fetch_product_data_from_api "KEY" "1"
              (Body (JDict [("product", JDict [("tcin", JStr "1")])]))
              (world_with [])).2) 1%nat
  = [("tcin", JStr "changed")].
Proof.
  exact (proj1 (proj2 (proj2 (proj2 (proj2
           (C5_cached_object_is_shared "KEY" "1"
              (Body (JDict [("product", JDict [("tcin", JStr "1")])])) (Failed Timeout)
              "tcin" (JStr "changed") (world_with []) 1%nat [] _
              (world_with_wf []) eq_refl)))))).
Defined.

(** C8: with an empty credential a press on the fetch button only shows
    the missing-key error: whatever the network would answer, no request
    is sent, the cache and the stored record stay as they are, and this
    holds for the sidebar as for the whole run. *)
Theorem C8_empty_credential (tcin : string) (answer : http_outcome) (w : world) :
  draw_sidebar "" tcin true answer w
  = ([Header "API Credentials"; Header "Search by TCIN"; Error "Please provide an API key!"],
     set_session (set_api_key "" (session w)) w) ∧
  requests (draw_sidebar "" tcin true answer w).2 = requests w ∧
  cache (draw_sidebar "" tcin true answer w).2 = cache w ∧
  stored_product (draw_sidebar "" tcin true answer w).2 = stored_product w ∧
  (∀ i, api_key_input i = "" →
        requests (world_of (main i w)) = requests w ∧
        cache (world_of (main i w)) = cache w).
Proof.
  split; [done|]. split; [done|]. split; [done|]. split; [done|].
  intros i Hi. rewrite main_world. cbv zeta. rewrite Hi.
  destruct (init_session_state_frame w) as [Hc Hr].
  set (w1 := (draw_sidebar "" _ _ _ _).2).
  assert (Hs : requests w1 = requests w ∧ cache w1 = cache w).
  { subst w1. by destruct (fetch_clicked i). }
  destruct (String.eqb _ _); [done|].
  by destruct (draw_annotations_tab_frame (edit i) (export_clicked i) w1) as (_ & -> & -> & _).
Qed.

Lemma C8_empty_credential_witness :
  requests (world_of (main (sample_run "" "Annotations") empty_world)) = requests empty_world.
Proof.
  exact (proj1 (proj2 (proj2 (proj2 (proj2
           (C8_empty_credential "89603872" (Body sample_response) empty_world))))
           (sample_run "" "Annotations") eq_refl)).
Defined.


(** * Further properties of the program *)

(** ** Fetching *)

(** A fetch that fails gives the empty record and exactly one message, an
    error for an exception and a warning for a body that is not a mapping
    after unwrapping; a fetch that succeeds gives the unwrapped mapping and
    no message.  A body without the [product] envelope is taken as it is. *)
Theorem fetch_uncached_diagnostics (reply : http_outcome) :
  (fetch_failed reply = true →
     (fetch_uncached reply).1 = [] ∧
     ∃ text, (fetch_uncached reply).2
             = [match reply with Failed _ => Error text | Body _ => Warning text end]) ∧
  (fetch_failed reply = false →
     (fetch_uncached reply).2 = [] ∧
     ∃ j, reply = Body j ∧ unwrap_product j = JDict (fetch_uncached reply).1) ∧
  (∀ d, reply = Body (JDict d) → dict_contains d "product" = false →
        fetch_uncached reply = (d, [])).
Proof.
  split; [|split].
  - destruct reply as [j|[]]; simpl; try (intros _; split; eauto; fail).
    destruct (unwrap_product j); intros; try done; split; eauto.
  - destruct reply as [j|e]; simpl; [|done].
    destruct (unwrap_product j) eqn:E; try done. intros _. split; eauto.
  - intros d -> Hd. simpl. by rewrite Hd.
Qed.

Lemma fetch_uncached_diagnostics_witness :
  (fetch_uncached (Body (JList [JInt 1]))).1 = [] ∧
  fetch_uncached (Body (JDict [("tcin", JStr "1")])) = ([("tcin", JStr "1")], []).
Proof.
  split.
  - exact (proj1 (proj1 (fetch_uncached_diagnostics (Body (JList [JInt 1]))) eq_refl)).
  - exact (proj2 (proj2 (fetch_uncached_diagnostics (Body (JDict [("tcin", JStr "1")])))) _
             eq_refl eq_refl).
Defined.

(** A failure is cached like a result: after a fetch that was sent and
    failed, pressing the button again with the same credential and
    identifier sends nothing, whatever the network would answer now; it
    shows the diagnostic of the failed call again, followed by the no-data
    warning, and leaves the world as it is. *)
Theorem failed_fetch_is_cached (api tcin : string) (reply1 reply2 : http_outcome) (w : world) :
  str_truthy api = true → cache w !! (api, tcin) = None → fetch_failed reply1 = true →
  draw_sidebar api tcin true reply2 (draw_sidebar api tcin true reply1 w).2
  = ([Header "API Credentials"; Header "Search by TCIN"] ++ (fetch_uncached reply1).2
       ++ [Warning "No product data fetched. Check the TCIN or API availability."],
     (draw_sidebar api tcin true reply1 w).2) ∧
  ∃ text, (fetch_uncached reply1).2
          = [match reply1 with Failed _ => Error text | Body _ => Warning text end].
Proof.
  intros Ha Hmiss Hfail. split; [|by apply fetch_uncached_diagnostics].
  pose proof (fetch_miss api tcin reply1 (set_session (set_api_key api (session w)) w) Hmiss)
    as Hf.
  rewrite (draw_sidebar_fetch _ _ _ _ _ _ _ Ha Hf). clear Hf.
  rewrite (fetch_uncached_failed _ Hfail). simpl length. simpl heap. simpl cache.
  simpl requests. simpl session. simpl recorded. simpl image_error.
  set (w1 := {| heap := heap w ++ [[]];
                cache := <[(api, tcin) := length (heap w)]> (cache w);
                requests := requests w ++ [(api, tcin)];
                session := set_api_key api (session w);
                recorded := <[(api, tcin) := (fetch_uncached reply1).2]> (recorded w);
                image_error := image_error w |}).
  assert (Hnew : deref w1 (length (heap w)) = []).
  { unfold deref. simpl. by apply list_lookup_total_middle. }
  rewrite Hnew. cbn [dict_truthy snd].
  assert (Hhit : fetch_product_data_from_api api tcin reply2
                   (set_session (set_api_key api (session w1)) w1)
                 = (length (heap w), (fetch_uncached reply1).2, w1)).
  { unfold fetch_product_data_from_api, replayed. simpl. by rewrite !lookup_insert_eq. }
  rewrite (draw_sidebar_fetch _ _ _ _ _ _ _ Ha Hhit). by rewrite Hnew.
Qed.

Lemma failed_fetch_is_cached_witness :
  draw_sidebar "KEY" "1" true (Body sample_response)
    (draw_sidebar "KEY" "1" true (Failed Timeout) empty_world).2
  = ([Header "API Credentials"; Header "Search by TCIN";
      Error "Request timed out even after retries. Please try again later.";
      Warning "No product data fetched. Check the TCIN or API availability."],
     (draw_sidebar "KEY" "1" true (Failed Timeout) empty_world).2).
Proof.
  exact (proj1 (failed_fetch_is_cached "KEY" "1" (Failed Timeout) (Body sample_response)
                  empty_world eq_refl eq_refl eq_refl)).
Defined.

(** ** Requests and the cache over whole runs *)

Lemma draw_sidebar_effect (api tcin : string) (clicked : bool) (answer : http_outcome)
    (w : world) :
  let w' := (draw_sidebar api tcin clicked answer w).2 in
  if clicked && str_truthy api && bool_decide (cache w !! (api, tcin) = None) then
    heap w' = heap w ++ [(fetch_uncached answer).1] ∧
    cache w' = <[(api, tcin) := length (heap w)]> (cache w) ∧
    requests w' = requests w ++ [(api, tcin)]
  else heap w' = heap w ∧ cache w' = cache w ∧ requests w' = requests w.
Proof.
  cbv zeta. destruct clicked; [|done]. cbn [andb].
  destruct (str_truthy api) eqn:Ha; [|by (unfold draw_sidebar; rewrite Ha)]. cbn [andb].
  destruct (cache w !! (api, tcin)) as [l|] eqn:E.
  - rewrite bool_decide_eq_false_2 by done.
    rewrite (draw_sidebar_fetch api tcin answer w l _ _ Ha
               (fetch_hit api tcin answer (set_session (set_api_key api (session w)) w) l E)).
    by destruct (dict_truthy _).
  - rewrite bool_decide_eq_true_2 by done.
    rewrite (draw_sidebar_fetch api tcin answer w _ _ _ Ha
               (fetch_miss api tcin answer (set_session (set_api_key api (session w)) w) E)).
    by destruct (dict_truthy _).
Qed.

(** A run of the script sends a request exactly when the button is
    pressed, the credential is not empty and the pair of credential and
    identifier is not in the cache; it then sends one request, for that
    pair, and caches the pair. *)
Theorem main_requests (i : user_input) (w : world) :
  let sent := fetch_clicked i && str_truthy (api_key_input i)
              && bool_decide (cache w !! (api_key_input i, tcin_input i) = None) in
  requests (world_of (main i w))
  = (if sent then requests w ++ [(api_key_input i, tcin_input i)] else requests w) ∧
  (∀ k, is_Some (cache (world_of (main i w)) !! k)
        ↔ is_Some (cache w !! k) ∨ (sent = true ∧ k = (api_key_input i, tcin_input i))).
Proof.
  cbv zeta. rewrite main_world. cbv zeta.
  destruct (init_session_state_frame w) as [Hc Hr].
  pose proof (draw_sidebar_effect (api_key_input i) (tcin_input i) (fetch_clicked i) (reply i)
                (init_session_state w)) as He.
  cbv zeta in He. rewrite Hc, Hr in He.
  set (w1 := (draw_sidebar _ _ _ _ _).2) in *.
  assert (Ht : requests (if String.eqb (selected_tab i) "Product Details" then w1
                         else world_of (draw_annotations_tab (edit i) (export_clicked i) w1))
               = requests w1 ∧
               cache (if String.eqb (selected_tab i) "Product Details" then w1
                      else world_of (draw_annotations_tab (edit i) (export_clicked i) w1))
               = cache w1).
  { destruct (String.eqb _ _); [done|].
    by destruct (draw_annotations_tab_frame (edit i) (export_clicked i) w1)
      as (_ & -> & -> & _). }
  destruct Ht as [-> ->].
  destruct (fetch_clicked i && str_truthy (api_key_input i)
            && bool_decide (cache w !! (api_key_input i, tcin_input i) = None));
    destruct He as (_ & -> & ->); (split; [done|]); intros k.
  - rewrite lookup_insert. case_decide as Hk.
    + subst k. split; [by right|]. by eexists.
    + split; [by left|]. intros [?|[_ ->]]; done.
  - split; [by left|]. by intros [?|[? _]].
Qed.

Lemma empty_world_wf : wf_world empty_world.
Proof.
  split; simpl.
  - intros k l. by rewrite lookup_empty.
  - done.
Qed.

(** Over any number of runs from the start of the process, every
    reference kept by the cache or by the session is allocated. *)
Theorem reachable_world_well_formed (inputs : list user_input) :
  wf_world (run_all inputs empty_world).
Proof.
  assert (H : ∀ w, wf_world w → wf_world (run_all inputs w)).
  { induction inputs as [|i inputs IH]; intros w Hw; simpl; [done|].
    apply IH. by apply main_post. }
  apply H, empty_world_wf.
Qed.

(** Over any number of runs from the start of the process, no pair of
    credential and identifier is requested twice, and the pairs requested
    are exactly the pairs in the cache: once a pair was tried, also
    without success, the network is not asked about it again. *)
Theorem reachable_requests_distinct (inputs : list user_input) :
  NoDup (requests (run_all inputs empty_world)) ∧
  (∀ k, k ∈ requests (run_all inputs empty_world)
        ↔ is_Some (cache (run_all inputs empty_world) !! k)).
Proof.
  assert (H : ∀ w, NoDup (requests w) ∧ (∀ k, k ∈ requests w ↔ is_Some (cache w !! k)) →
                   NoDup (requests (run_all inputs w)) ∧
                   (∀ k, k ∈ requests (run_all inputs w)
                         ↔ is_Some (cache (run_all inputs w) !! k))).
  { induction inputs as [|i inputs IH]; intros w Hw; simpl; [done|].
    apply IH. destruct Hw as [Hnd Hdom].
    destruct (main_requests i w) as [Hr Hc]. cbv zeta in Hr, Hc.
    rewrite Hr. clear Hr.
    destruct (fetch_clicked i && str_truthy (api_key_input i)) ; simpl in *.
    - destruct (cache w !! (api_key_input i, tcin_input i)) as [l|] eqn:E.
      + rewrite bool_decide_eq_false_2 in * by done. split; [done|].
        intros k. rewrite Hc, Hdom. split; [by left|]. by intros [?|[? _]].
      + rewrite bool_decide_eq_true_2 in * by done. split.
        * apply NoDup_app. split; [done|]. split; [|apply NoDup_singleton].
          intros k Hk Hk'. apply list_elem_of_singleton in Hk' as ->. apply Hdom in Hk.
          rewrite E in Hk. by destruct Hk.
        * intros k. rewrite Hc, elem_of_app, list_elem_of_singleton, Hdom.
          split; [intros [?| ->]; [by left|by right]|].
          intros [?|[_ ->]]; [by left|by right].
    - split; [done|]. intros k. rewrite Hc, Hdom. split; [by left|]. by intros [?|[? _]]. }
  apply H. simpl. split; [constructor|].
  intros k. rewrite lookup_empty. split; [by intros ?%elem_of_nil|by intros [? ?]].
Qed.

(** ** The session over a run *)

Lemma draw_sidebar_session (api tcin : string) (clicked : bool) (answer : http_outcome)
    (w : world) :
  let w' := (draw_sidebar api tcin clicked answer w).2 in
  api_key (session w') = Some api ∧
  field_status (session w') = field_status (session w) ∧
  (product_data (session w') = product_data (session w) ∨
   ∃ l, clicked = true ∧ str_truthy api = true ∧ product_data (session w') = Some l ∧
        cache w' !! (api, tcin) = Some l ∧ dict_truthy (deref w' l) = true).
Proof.
  cbv zeta. destruct clicked; [|by repeat split; auto].
  destruct (str_truthy api) eqn:Ha;
    [|by unfold draw_sidebar; rewrite Ha; repeat split; auto].
  destruct (cache w !! (api, tcin)) as [l|] eqn:E.
  - rewrite (draw_sidebar_fetch api tcin answer w l _ _ Ha
               (fetch_hit api tcin answer (set_session (set_api_key api (session w)) w) l E)).
    destruct (dict_truthy _) eqn:Ht; simpl; repeat split; auto.
    right. exists l. by repeat split.
  - rewrite (draw_sidebar_fetch api tcin answer w _ _ _ Ha
               (fetch_miss api tcin answer (set_session (set_api_key api (session w)) w) E)).
    destruct (dict_truthy _) eqn:Ht; simpl; repeat split; auto.
    right. exists (length (heap w)). repeat split; try done.
    by rewrite lookup_insert_eq.
Qed.

Lemma main_raised (i : user_input) (w : world) :
  raised_of (main i w)
  = let w1 := (draw_sidebar (api_key_input i) (tcin_input i) (fetch_clicked i) (reply i)
                 (init_session_state w)).2 in
    if String.eqb (selected_tab i) "Product Details"
    then (draw_product_details_tab (show_optional i) w1).2
    else raised_of (draw_annotations_tab (edit i) (export_clicked i) w1).
Proof.
  unfold main.
  destruct (draw_sidebar _ _ _ _ _) as [sidebar w1]. simpl.
  destruct (String.eqb _ _).
  - by destruct (draw_product_details_tab _ _).
  - by destruct (draw_annotations_tab _ _ _) as [[? ?] ?].
Qed.

(** After a run the session holds the credential typed into the sidebar
    (also when the button was not pressed), and the catalog is the one the
    run started from on the details tab and the table's version of it on
    the annotations tab. *)
Theorem main_session (i : user_input) (w : world) :
  api_key (session (world_of (main i w))) = Some (api_key_input i) ∧
  field_status (session (world_of (main i w)))
  = Some (if String.eqb (selected_tab i) "Product Details" then catalog_at_start w
          else edit i (catalog_at_start w)).
Proof.
  rewrite main_world. cbv zeta.
  destruct (draw_sidebar_session (api_key_input i) (tcin_input i) (fetch_clicked i) (reply i)
              (init_session_state w)) as (Hk & Hf & _).
  set (w1 := (draw_sidebar _ _ _ _ _).2) in *.
  assert (Hf0 : field_status (session w1) = Some (catalog_at_start w)).
  { rewrite Hf. unfold catalog_at_start. by destruct w as [h c r [[l|] [k|] [rows|]]]. }
  destruct (String.eqb _ _); [done|].
  destruct w1 as [h1 c1 r1 [pd1 ak1 fs1]]. simpl in Hk, Hf0. subst ak1 fs1.
  unfold draw_annotations_tab, world_of. simpl.
  destruct (export_clicked i); [|done].
  destruct pd1 as [l|]; simpl; [|done].
  destruct (negb _); [done|]. by destruct (build_final_data _ _).
Qed.

(** A stored record that is not empty is never lost: after any run the
    session still holds a non-empty record, the same one when the fetch
    button was not pressed. *)
Theorem stored_record_stays_non_empty (i : user_input) (w : world) (d : dict) :
  wf_world w → stored_product w = Some d → d ≠ [] →
  ∃ d', stored_product (world_of (main i w)) = Some d' ∧ d' ≠ [] ∧
        (fetch_clicked i = false → d' = d).
Proof.
  intros Hwf Hs Hd.
  assert (H0 : wf_world (init_session_state w) ∧ stored_product (init_session_state w) = Some d).
  { split; [by apply init_session_state_wf|].
    destruct w as [h c r [[l|] [k|] [rows|]]]; done. }
  destruct H0 as [Hwf0 Hs0]. rewrite main_world. cbv zeta.
  destruct (draw_sidebar_post (api_key_input i) (tcin_input i) (fetch_clicked i) (reply i)
              _ Hwf0) as (_ & _ & Hderef).
  destruct (draw_sidebar_session (api_key_input i) (tcin_input i) (fetch_clicked i) (reply i)
              (init_session_state w)) as (_ & _ & Hpd).
  set (w1 := (draw_sidebar _ _ _ _ _).2) in *.
  assert (H1 : ∃ d', stored_product w1 = Some d' ∧ d' ≠ [] ∧ (fetch_clicked i = false → d' = d)).
  { unfold stored_product in *.
    destruct (product_data (session (init_session_state w))) as [l0|] eqn:E0; [|done].
    simpl in Hs0. injection Hs0 as Hl0.
    destruct Hpd as [->|(l & Hclick & _ & -> & _ & Ht)]; simpl.
    - exists d. rewrite Hderef, Hl0; [done|]. by apply Hwf0.
    - exists (deref w1 l). split; [done|]. split; [|by rewrite Hclick].
      by destruct (deref w1 l). }
  destruct (String.eqb _ _); [exact H1|].
  destruct (draw_annotations_tab_frame (edit i) (export_clicked i) w1) as (Eh & _ & _ & Ep).
  destruct H1 as (d' & H1 & H2). exists d'. split; [|done].
  unfold stored_product, deref in *. by rewrite Ep, Eh.
Qed.

Lemma stored_record_stays_non_empty_witness :
  ∃ d', stored_product
          (world_of (main (sample_run "" "Annotations") (world_with [("tcin", JStr "1")])))
        = Some d' ∧ d' ≠ [].
Proof.
  destruct (stored_record_stays_non_empty (sample_run "" "Annotations")
              (world_with [("tcin", JStr "1")]) [("tcin", JStr "1")]
              (world_with_wf _) eq_refl) as (d' & H1 & H2 & _).
  - intros [=].
  - exists d'. split; [exact H1 | exact H2].
Defined.

(** The record that the session stores after a fetch is the cached object
    itself, not a copy: when the button is pressed with a credential and
    the cached record for the pair is not empty, the session refers to the
    cache's object, so a write into that object is a write into the stored
    record. *)
Theorem stored_record_is_cached_object (api tcin : string) (answer : http_outcome)
    (w : world) (l : nat) :
  wf_world w → str_truthy api = true →
  cache (draw_sidebar api tcin true answer w).2 !! (api, tcin) = Some l →
  dict_truthy (deref (draw_sidebar api tcin true answer w).2 l) = true →
  product_data (session (draw_sidebar api tcin true answer w).2) = Some l ∧
  (∀ k v, stored_product (setitem l k v (draw_sidebar api tcin true answer w).2)
          = Some (dict_set (deref (draw_sidebar api tcin true answer w).2 l) k v)).
Proof.
  intros Hwf Ha.
  destruct (fetch_product_data_from_api api tcin answer
              (set_session (set_api_key api (session w)) w)) as [[l1 events] w1] eqn:Hf.
  rewrite (draw_sidebar_fetch _ _ _ _ _ _ _ Ha Hf).
  destruct (fetch_post _ _ _ _ _ _ _ (set_api_key_wf w api Hwf) Hf) as (Hc & Hl & _).
  destruct (dict_truthy (deref w1 l1)) eqn:Ht; simpl.
  - rewrite Hc. intros [= <-] _. split; [done|]. intros k v.
    unfold stored_product. simpl. f_equal.
    change (deref (setitem l1 k v w1) l1 = dict_set (deref w1 l1) k v).
    by apply deref_setitem.
  - rewrite Hc. intros [= <-]. by rewrite Ht.
Qed.

Lemma stored_record_is_cached_object_witness :
  stored_product
    (setitem 0%nat "title" (JStr "changed")
       (draw_sidebar "KEY" "1" true (Body (JDict [("tcin", JStr "1")])) empty_world).2)
  = Some [("tcin", JStr "1"); ("title", JStr "changed")].
Proof.
  exact (proj2 (stored_record_is_cached_object "KEY" "1" (Body (JDict [("tcin", JStr "1")]))
                  empty_world 0%nat empty_world_wf eq_refl eq_refl eq_refl)
           "title" (JStr "changed")).
Defined.


(** ** Where an exception can come from *)

Lemma price_text_raise_inv (data : dict) (e : exn) :
  price_text data = Raise e →
  (∃ t, e = AttributeError t "get") ∧ price_shape_ok data = false.
Proof.
  destruct (price_shape_ok data) eqn:Hp.
  - destruct (price_text_returns data Hp) as [text ->]. done.
  - destruct (price_text_raises data Hp) as [t ->]. intros [= <-]. eauto.
Qed.

Lemma export_field_value_raise_inv (data : dict) (f : string) (e : exn) :
  export_field_value data f = Raise e → f = "Price" ∧ price_text data = Raise e.
Proof.
  destruct (String.eqb_spec f "Price") as [->|Hne].
  - unfold export_field_value. cbn. destruct (price_text data); cbn; [done|].
    by intros [= ->].
  - destruct (export_field_value_returns data f Hne) as [v ->]. done.
Qed.

Lemma details_line_raise_inv (data : dict) (f : string) (e : exn) :
  details_line_linear data f = Raise e → f = "Price" ∧ price_text data = Raise e.
Proof.
  unfold details_line_linear, price_line.
  destruct (String.eqb_spec f "Price") as [->|Hne].
  - destruct (price_text data); cbn; [done|]. by intros [= ->].
  - by destruct (String.eqb f "Main Image").
Qed.

Lemma details_loop_raise_inv (line : string → result (option ui_event))
    (fields : list string) (e : exn) :
  (details_loop line fields).2 = Some e → ∃ f, In f fields ∧ line f = Raise e.
Proof.
  induction fields as [|f0 fields IH]; simpl; [done|].
  destruct (line f0) as [shown|e0] eqn:E0.
  - destruct (details_loop line fields) as [events raised]. simpl in *.
    intros H. destruct (IH H) as (f & ? & ?). eauto.
  - simpl. intros [= <-]. eauto.
Qed.

Lemma export_loop_raise_inv (data : dict) (fields : list string) (e : exn) :
  ∀ acc, export_loop data fields acc = Raise e →
         ∃ f, In f fields ∧ export_field_value data f = Raise e.
Proof.
  induction fields as [|f0 fields IH]; intros acc; simpl; [done|].
  destruct (export_field_value data f0) as [v0|e0] eqn:E0; cbn.
  - intros H. destruct (IH _ H) as (f & ? & ?). eauto.
  - intros [= <-]. eauto.
Qed.

(** The export raises exactly when [Price] is a required field and
    [buybox_winner] or the [price] under it is bound to something that is
    not a mapping; in every other case it returns a document. *)
Theorem export_raises_iff (data : dict) (rows : list field_row) :
  (∃ e, build_final_data data rows = Raise e)
  ↔ In "Price" (required_names rows) ∧ price_shape_ok data = false.
Proof.
  unfold build_final_data. generalize (required_names rows) as fields.
  generalize (@nil (string * json)) as acc. intros acc fields. split.
  - intros [e He]. destruct (export_loop_raise_inv _ _ _ _ He) as (f & Hin & Hf).
    destruct (export_field_value_raise_inv _ _ _ Hf) as [-> Hp].
    split; [done|]. by destruct (price_text_raise_inv _ _ Hp).
  - intros [Hin Hp]. revert acc. induction fields as [|f0 fields IH]; intros acc; [done|].
    simpl. destruct (String.eqb_spec f0 "Price") as [->|Hne].
    + unfold export_field_value. cbn. destruct (price_text_raises data Hp) as [t ->].
      cbn. eauto.
    + destruct (export_field_value_returns data f0 Hne) as [v0 ->]. cbn.
      apply IH. destruct Hin as [?|?]; [congruence|done].
Qed.

Lemma main_image_error (i : user_input) (w : world) :
  image_error (draw_sidebar (api_key_input i) (tcin_input i) (fetch_clicked i) (reply i)
                 (init_session_state w)).2
  = image_error w.
Proof.
  assert (H0 : image_error (init_session_state w) = image_error w).
  { by destruct w as [h c r [[l|] [k|] [rows|]]]. }
  rewrite <- H0. generalize (init_session_state w) as w0. intros w0.
  destruct (fetch_clicked i); [|done].
  destruct (str_truthy (api_key_input i)) eqn:Ha;
    [|by unfold draw_sidebar; rewrite Ha].
  destruct (fetch_product_data_from_api (api_key_input i) (tcin_input i) (reply i)
              (set_session (set_api_key (api_key_input i) (session w0)) w0))
    as [[l events] w1] eqn:Hf.
  rewrite (draw_sidebar_fetch _ _ _ _ _ _ _ Ha Hf).
  destruct (fetch_replay _ _ _ _ _ _ _ Hf) as [_ He].
  by destruct (dict_truthy _).
Qed.

(** A run of the script raises in two places only.  One is the price
    lookup, with its [AttributeError], over a stored record whose
    [buybox_winner] or [price] is not a mapping.  The other is [st.image]
    on the details tab, for the link of the stored record, with whatever
    that call raises.  The session keys are always there when a tab reads
    them, whatever the session was before the run. *)
Theorem main_raises_inv (i : user_input) (w : world) (e : exn) :
  raised_of (main i w) = Some e →
  ((∃ t, e = AttributeError t "get") ∧
   ∃ d, stored_product (world_of (main i w)) = Some d ∧ price_shape_ok d = false) ∨
  (selected_tab i = "Product Details" ∧
   ∃ d url, stored_product (world_of (main i w)) = Some d ∧
            displayable_image (main_image_url d) = Some url ∧
            image_error w url = Some e).
Proof.
  rewrite main_raised, main_world. cbv zeta.
  destruct (draw_sidebar_session (api_key_input i) (tcin_input i) (fetch_clicked i) (reply i)
              (init_session_state w)) as (_ & Hf & Hpd).
  pose proof (main_image_error i w) as Henv.
  destruct (init_session_state_initialised w) as (l0 & k0 & rows0 & Hs0).
  rewrite Hs0 in Hf, Hpd. simpl in Hf, Hpd.
  set (w1 := (draw_sidebar _ _ _ _ _).2) in *.
  assert (Hl : ∃ l, product_data (session w1) = Some l).
  { destruct Hpd as [?|(l & _ & _ & ? & _)]; eauto. }
  destruct Hl as [l Hl].
  destruct w1 as [h1 c1 r1 [pd1 ak1 fs1] rec1 env1]. simpl in Hf, Hl, Henv. subst pd1 fs1 env1.
  destruct (String.eqb_spec (selected_tab i) "Product Details") as [Htab|_].
  - unfold draw_product_details_tab, stored_product. simpl.
    destruct (negb _); [done|].
    destruct (displayable_image _) as [url|] eqn:Ed.
    + destruct (image_error w url) as [e0|] eqn:Ei.
      * simpl. intros [= ->]. right. split; [done|]. eauto.
      * destruct (details_loop _ _) as [lines raised] eqn:El. simpl. intros ->.
        pose proof (details_loop_raise_inv (details_line_columns _) _ e
                      ltac:(by rewrite El)) as (f & _ & Hline).
        rewrite details_lines_agree in Hline.
        destruct (details_line_raise_inv _ _ _ Hline) as [_ Hp].
        destruct (price_text_raise_inv _ _ Hp). left. eauto.
    + destruct (details_loop _ _) as [lines raised] eqn:El. simpl. intros ->.
      pose proof (details_loop_raise_inv (details_line_linear _) _ e
                    ltac:(by rewrite El)) as (f & _ & Hline).
      destruct (details_line_raise_inv _ _ _ Hline) as [_ Hp].
      destruct (price_text_raise_inv _ _ Hp). left. eauto.
  - unfold draw_annotations_tab, raised_of, world_of, stored_product. simpl.
    destruct (export_clicked i); [|done]. simpl.
    destruct (negb _); [done|].
    destruct (build_final_data _ _) as [fd|e0] eqn:Eb; [done|]. simpl. intros [= ->].
    destruct (export_loop_raise_inv _ _ _ _ Eb) as (f & _ & Hv).
    destruct (export_field_value_raise_inv _ _ _ Hv) as [_ Hp].
    destruct (price_text_raise_inv _ _ Hp). left. eauto.
Qed.

Lemma main_raises_inv_witness :
  ∃ t, AttributeError "str" "get" = AttributeError t "get".
Proof.
  destruct (main_raises_inv
              {| api_key_input := "KEY"; tcin_input := "1"; fetch_clicked := true;
                 reply := Body (JDict [("buybox_winner", JStr "sold out")]);
                 selected_tab := "Annotations"; show_optional := false;
                 edit := id; export_clicked := true |}
              empty_world (AttributeError "str" "get") eq_refl) as [[H _]|[H _]].
  - exact H.
  - discriminate H.
Defined.

(** ** The export document as a whole *)

Lemma dict_get_set_eq (d : dict) (k : string) (v default : json) :
  dict_get (dict_set d k v) k default = v.
Proof.
  induction d as [|[k' v'] d IH]; simpl.
  - by rewrite String.eqb_refl.
  - destruct (String.eqb k' k) eqn:E; simpl; by rewrite E.
Qed.

Lemma dict_get_set_ne (d : dict) (k k' : string) (v default : json) :
  k ≠ k' → dict_get (dict_set d k v) k' default = dict_get d k' default.
Proof.
  intros Hne. induction d as [|[k0 v0] d IH]; simpl.
  - by destruct (String.eqb_spec k k').
  - destruct (String.eqb_spec k0 k) as [->|Hk]; simpl.
    + by destruct (String.eqb_spec k k').
    + by rewrite IH.
Qed.

Lemma dict_contains_set (d : dict) (k k' : string) (v : json) :
  dict_contains (dict_set d k v) k' = String.eqb k k' || dict_contains d k'.
Proof.
  induction d as [|[k0 v0] d IH]; simpl.
  - by destruct (String.eqb k k').
  - destruct (String.eqb_spec k0 k) as [->|Hk]; simpl.
    + by destruct (String.eqb k k').
    + rewrite IH. destruct (String.eqb k0 k'); [by rewrite orb_true_r|done].
Qed.

Lemma dict_set_keys_nodup (d : dict) (k : string) (v : json) :
  NoDup (dict_keys d) → NoDup (dict_keys (dict_set d k v)).
Proof.
  intros Hnd. destruct (dict_contains d k) eqn:Hc.
  - by rewrite dict_set_keys_old.
  - rewrite dict_set_keys_new by done. apply NoDup_app. split; [done|].
    split; [|apply NoDup_singleton].
    intros k' Hk' Hk. apply list_elem_of_singleton in Hk as ->.
    apply dict_contains_keys in Hk'. congruence.
Qed.

Lemma export_loop_lookup (data : dict) (fields : list string) :
  ∀ (acc final_data : dict),
    export_loop data fields acc = Ok final_data →
    NoDup (dict_keys acc) →
    NoDup (dict_keys final_data) ∧
    ∀ f default,
      (In f fields →
         dict_contains final_data f = true ∧
         export_field_value data f = Ok (dict_get final_data f default)) ∧
      (¬ In f fields →
         dict_contains final_data f = dict_contains acc f ∧
         dict_get final_data f default = dict_get acc f default).
Proof.
  induction fields as [|f0 fields IH]; intros acc final_data; simpl.
  - intros [= <-] Hnd. split; [done|]. intros f default. split; [done|done].
  - destruct (export_field_value data f0) as [v0|e] eqn:E0; cbn; [|done].
    intros Hloop Hnd.
    destruct (IH _ _ Hloop (dict_set_keys_nodup _ f0 v0 Hnd)) as [Hnd' Hfd].
    split; [done|]. intros f default. destruct (Hfd f default) as [Hin Hout]. split.
    + intros [->|Hf]; [|by apply Hin].
      destruct (In_dec string_dec f fields) as [Hf|Hf]; [by apply Hin|].
      destruct (Hout Hf) as [-> ->].
      rewrite dict_contains_set, String.eqb_refl, dict_get_set_eq. done.
    + intros Hf. destruct (Hout ltac:(tauto)) as [-> ->].
      assert (f0 ≠ f) by tauto.
      rewrite dict_contains_set, dict_get_set_ne by done.
      by destruct (String.eqb_spec f0 f).
Qed.

(** When the export returns, the document has one entry per required
    name, no key twice also when the catalog repeats a name, and each
    required field is found in it with the value projected for it; for a
    catalog without repeated names the keys are the required names in
    catalog order. *)
Theorem export_document_complete (data : dict) (rows : list field_row) (final_data : dict) :
  build_final_data data rows = Ok final_data →
  NoDup (dict_keys final_data) ∧
  (∀ f, dict_contains final_data f = true ↔ In f (required_names rows)) ∧
  (∀ f default, In f (required_names rows) →
                export_field_value data f = Ok (dict_get final_data f default)) ∧
  (NoDup (required_names rows) → dict_keys final_data = required_names rows).
Proof.
  intros Hb.
  destruct (export_loop_lookup data _ [] final_data Hb ltac:(constructor)) as [Hnd Hfd].
  split; [done|]. split; [|split].
  - intros f. destruct (In_dec string_dec f (required_names rows)) as [Hf|Hf].
    + split; [done|]. intros _. by apply (Hfd f JNull).
    + destruct (proj2 (Hfd f JNull) Hf) as [-> _]. simpl. split; [done|tauto].
  - intros f default Hf. by apply Hfd.
  - intros Hnd'. by apply export_keys_in_catalog_order with data.
Qed.

Lemma export_document_complete_witness :
  export_field_value [("tcin", JStr "1")] "TCIN"
  = Ok (dict_get [("TCIN", JStr "1"); ("Product Title", JStr "N/A")] "TCIN" JNull).
Proof.
  exact (proj1 (proj2 (proj2
           (export_document_complete [("tcin", JStr "1")]
              [ {| field := "TCIN"; required := true |};
                {| field := "UPC"; required := false |};
                {| field := "Product Title"; required := true |} ]
              [("TCIN", JStr "1"); ("Product Title", JStr "N/A")] eq_refl)))
           "TCIN" JNull (or_introl eq_refl)).
Defined.

(** ** The details tab *)

(** With the optional fields shown, every row of the catalog is displayed
    once, the required rows first and each group in catalog order. *)
Theorem displayed_fields_cover_catalog (rows : list field_row) :
  required_names rows ++ optional_names rows ≡ₚ map field rows ∧
  required_names rows = map field (List.filter required rows) ∧
  optional_names rows = map field (List.filter (fun row => negb (required row)) rows).
Proof.
  unfold required_names, optional_names.
  induction rows as [|[f [|]] rows (IH & IHr & IHo)]; [done| |].
  - rewrite !filter_cons. simpl.
    split; [by rewrite IH|]. split; [by rewrite IHr|done].
  - rewrite !filter_cons. simpl.
    split; [|split; [done|by rewrite IHo]].
    rewrite <- Permutation_middle. by rewrite IH.
Qed.

(** The line that the details tab writes for a field is the export value
    of the field printed after the field's name, and the two layouts write
    the same line; the tab raises where the export raises; [Main Image]
    gets no line. *)
Theorem display_matches_export (data : dict) (f : string) :
  details_line_linear data f
  = (if String.eqb f "Main Image" then Ok None
     else v ← export_field_value data f;
          mret (Some (Markdown ("**" +:+ f +:+ ":** " +:+ py_str v)))) ∧
  details_line_columns data f = details_line_linear data f.
Proof.
  split; [|apply details_lines_agree].
  unfold details_line_linear, export_field_value, price_line, mapped_line.
  destruct (String.eqb_spec f "Price") as [->|Hp].
  - cbn. by destruct (price_text data).
  - by destruct (String.eqb f "Main Image").
Qed.

Lemma details_loop_ext (line line' : string → result (option ui_event))
    (fields : list string) :
  (∀ f, line f = line' f) → details_loop line fields = details_loop line' fields.
Proof.
  intros Hext. induction fields as [|f0 fields IH]; simpl; [done|].
  by rewrite Hext, IH.
Qed.



Lemma details_loop_markdown (data : dict) (fields : list string) (ev : ui_event) :
  In ev (details_loop (details_line_linear data) fields).1 → ∃ text, ev = Markdown text.
Proof.
  induction fields as [|f0 fields IH]; simpl; [done|].
  destruct (details_line_linear data f0) as [shown|e] eqn:E0; [|done].
  destruct (details_loop (details_line_linear data) fields) as [events raised].
  simpl in *. destruct shown as [ev0|]; [|done].
  intros [<-|Hin]; [|by apply IH].
  revert E0. unfold details_line_linear, price_line, mapped_line.
  destruct (String.eqb f0 "Price").
  - destruct (price_text data); cbn; [|done]. intros [= <-]. eauto.
  - destruct (String.eqb f0 "Main Image"); [done|]. intros [= <-]. eauto.
Qed.

Lemma displayable_image_inv (data : dict) (u : string) :
  displayable_image (main_image_url data) = Some u →
  String.prefix "http" u = true ∧
  ∃ m, dict_get data "main_image" JNull = JDict m ∧ dict_get m "link" (JStr "") = JStr u.
Proof.
  unfold displayable_image, main_image_url.
  destruct (dict_get data "main_image" JNull) as [| | | | | |m]; simpl; try done.
  destruct (dict_get m "link" (JStr "")) as [| | | |u'| |] eqn:Eu; simpl; try done.
  destruct (String.prefix "http" u') eqn:Ep; [|done]. intros [= ->]. eauto.
Qed.

(** The details tab shows an image only for a link it found under
    [main_image] in the stored record, and only when that link is a
    string that starts with http; the image is captioned Main Image. *)
Theorem details_tab_image (show_optional : bool) (w : world) (url caption : string) :
  In (Image url caption) (draw_product_details_tab show_optional w).1 →
  caption = "Main Image" ∧ String.prefix "http" url = true ∧
  ∃ l m, product_data (session w) = Some l ∧
         dict_get (deref w l) "main_image" JNull = JDict m ∧
         dict_get m "link" (JStr "") = JStr url.
Proof.
  unfold draw_product_details_tab.
  destruct (product_data (session w)) as [l|]; simpl; [|by intros [[=]|[]]].
  destruct (field_status (session w)) as [rows|]; simpl; [|by intros [[=]|[]]].
  destruct (negb _); [by intros [[=]|[[=]|[]]]|].
  rewrite (details_loop_ext (details_line_columns _) (details_line_linear (deref w l)))
    by apply details_lines_agree.
  pose proof (details_loop_markdown (deref w l)
                (required_names rows ++ (if show_optional then optional_names rows else []))
                (Image url caption)) as Hmd.
  destruct (details_loop _ _) as [lines raised]. simpl in Hmd.
  destruct (displayable_image _) as [u|] eqn:Ed; simpl.
  - destruct (image_error w u) as [e|]; simpl; [by intros [[=]|[[=]|[]]]|].
    intros [[=]|[[=]|[[= <- <-]|Hin]]].
    + destruct (displayable_image_inv _ _ Ed) as (Hp & m & Hm & Hu). eauto 7.
    + by destruct (Hmd Hin).
  - intros [[=]|[[=]|Hin]]. by destruct (Hmd Hin).
Qed.

Lemma details_tab_image_witness :
  String.prefix "http" "http://img/x.jpg" = true.
Proof.
  exact (proj1 (proj2
           (details_tab_image false
              (world_with [("main_image", JDict [("link", JStr "http://img/x.jpg")])])
              "http://img/x.jpg" "Main Image"
              (or_intror (or_intror (or_introl eq_refl)))))).
Defined.

(** A field whose key is missing from the record is exported as the
    sentinel, [Price] and [Main Image] included, and displayed as the
    sentinel after its name. *)
Theorem missing_key_gives_sentinel (data : dict) (f : string) :
  dict_contains data (upstream_key f) = false →
  export_field_value data f = Ok (JStr "N/A") ∧
  details_line_linear data f
  = Ok (if String.eqb f "Main Image" then None
        else Some (Markdown ("**" +:+ f +:+ ":** N/A"))).
Proof.
  intros Habs.
  assert (He : export_field_value data f = Ok (JStr "N/A")).
  { revert Habs. unfold upstream_key, export_field_value, mapped_value, price_text.
    destruct (String.eqb f "Price").
    - intros Habs. by rewrite (dict_get_absent _ _ _ Habs).
    - destruct (String.eqb f "Main Image"); intros Habs;
        by rewrite (dict_get_absent _ _ _ Habs). }
  split; [done|]. rewrite (proj1 (display_matches_export data f)), He.
  by destruct (String.eqb f "Main Image").
Qed.

Lemma missing_key_gives_sentinel_witness :
  export_field_value [("tcin", JStr "1")] "Price" = Ok (JStr "N/A").
Proof.
  exact (proj1 (missing_key_gives_sentinel [("tcin", JStr "1")] "Price" eq_refl)).
Defined.


(** ** Export with data, and a fresh session *)

(** With a stored record that is not empty, and the price readable or
    [Price] not required, a press on the export button raises nothing and
    ends by showing the document built from the table's rows, printed by
    [json_dumps], followed by the success message; only the catalog of the
    session is assigned. *)
Theorem export_shows_document (edit : list field_row → list field_row) (w : world)
    (l : nat) (rows : list field_row) :
  field_status (session w) = Some rows →
  product_data (session w) = Some l →
  deref w l ≠ [] →
  price_shape_ok (deref w l) = true ∨ ¬ In "Price" (required_names (edit rows)) →
  ∃ final_data shown,
    build_final_data (deref w l) (edit rows) = Ok final_data ∧
    draw_annotations_tab edit true w
    = (shown ++ [Code (json_dumps final_data) "json"; Success "JSON exported above!"],
       set_session (set_field_status (edit rows) (session w)) w, None) ∧
    existsb is_code shown = false.
Proof.
  intros Hfs Hpd Hne Hok.
  destruct (build_final_data (deref w l) (edit rows)) as [fd|e] eqn:Eb.
  - exists fd,
      [ Subheader "Annotations: Required vs. Optional Fields";
        Write "Toggle each field's required status using the table below. Fields marked as 'required' will appear in the Product Details view.";
        Write "---"; DataEditor (edit rows); Write "---" ].
    split; [done|].
    destruct w as [h c r [pd ak fs] rec env]. simpl in Hfs, Hpd. subst pd fs.
    unfold draw_annotations_tab. simpl.
    change (deref _ l) with (deref {| heap := h; cache := c; requests := r;
                                      session := {| product_data := Some l; api_key := ak;
                                                    field_status := Some rows |};
                                      recorded := rec; image_error := env |} l).
    destruct (deref _ l) as [|kv d] eqn:Ed; [done|]. simpl. by rewrite Eb.
  - destruct (proj1 (export_raises_iff (deref w l) (edit rows)) ltac:(eauto)) as [Hin Hp].
    destruct Hok as [Hok|Hok]; [congruence|done].
Qed.

Lemma export_shows_document_witness :
  ∃ final_data shown,
    build_final_data [("tcin", JStr "1")] default_field_status = Ok final_data ∧
    draw_annotations_tab id true (world_with [("tcin", JStr "1")])
    = (shown ++ [Code (json_dumps final_data) "json"; Success "JSON exported above!"],
       set_session (set_field_status default_field_status
                      (session (world_with [("tcin", JStr "1")])))
         (world_with [("tcin", JStr "1")]), None) ∧
    existsb is_code shown = false.
Proof.
  refine (export_shows_document id (world_with [("tcin", JStr "1")]) 0%nat
            default_field_status eq_refl eq_refl _ (or_introl eq_refl)).
  intros [=].
Defined.

(** Initialisation supplies what the session lacks: a missing product
    record becomes a new empty record, a missing credential the empty
    string and a missing catalog the built-in rows, so that afterwards all
    three keys are present. *)
Theorem init_session_state_defaults (w : world) :
  (product_data (session w) = None → stored_product (init_session_state w) = Some []) ∧
  (api_key (session w) = None → api_key (session (init_session_state w)) = Some "") ∧
  (field_status (session w) = None →
     field_status (session (init_session_state w)) = Some default_field_status) ∧
  is_Some (product_data (session (init_session_state w))) ∧
  is_Some (api_key (session (init_session_state w))) ∧
  is_Some (field_status (session (init_session_state w))).
Proof.
  destruct w as [h c r [[l|] [k|] [rows|]]]; simpl; repeat split; try done;
    try (intros _; unfold stored_product, deref; simpl; f_equal;
         by apply list_lookup_total_middle);
    by eexists.
Qed.

Lemma init_session_state_defaults_witness :
  stored_product (init_session_state empty_world) = Some [] ∧
  field_status (session (init_session_state empty_world)) = Some default_field_status.
Proof.
  split.
  - exact (proj1 (init_session_state_defaults empty_world) eq_refl).
  - exact (proj1 (proj2 (proj2 (init_session_state_defaults empty_world))) eq_refl).
Defined.
